(** * Berlin travel guide (streamlit_app.py): a shallow embedding

    The Streamlit script is embedded part by part:
    - Python strings, exceptions and dynamically typed values ([PyStr],
      [PyVal]);
    - the three fetchers [get_exchange_rate], [get_weather] and
      [get_osm_places], with the cuisine keyword classifier the last one
      contains;
    - the crime table loader [load_and_process_crime_data] over a small
      model of a pandas frame;
    - the session-state handlers of the review and recommendation boards.

    Whatever the script obtains from outside (the case mapping of
    [str.lower], the HTTP services, the CSV file) is a field of a class
    the definitions are parametrised by, so that every statement holds for
    every behaviour of the outside world.

    The decorator [st.cache_data] is left out: it makes a second call with
    the same arguments return the value of the first, and every statement
    here is about one run of a function body. *)

From Stdlib Require Import ZArith NArith List String Ascii Bool Lia.
From Stdlib Require Import Floats.PrimFloat.
From stdpp Require Import base option list gmap.

Set Default Proof Using "Type".

(* ===================================================================== *)
(** * Python strings *)
(* ===================================================================== *)

Module PyStr.

(** A Python [str] is a sequence of Unicode code points. *)
Abbreviation pystr := (list N).

(** Source literals are written as Rocq strings, which hold the UTF-8
    bytes of the text; [utf8_decode] turns the bytes into code points. *)
Fixpoint utf8_decode (bs : list N) : pystr :=
  match bs with
  | [] => []
  | b0 :: r0 =>
    if (b0 <? 128)%N then b0 :: utf8_decode r0
    else
      match r0 with
      | [] => []
      | b1 :: r1 =>
        if (b0 <? 224)%N
        then ((b0 - 192) * 64 + (b1 - 128))%N :: utf8_decode r1
        else
          match r1 with
          | [] => []
          | b2 :: r2 =>
            if (b0 <? 240)%N
            then ((b0 - 224) * 4096 + (b1 - 128) * 64 + (b2 - 128))%N
                   :: utf8_decode r2
            else
              match r2 with
              | [] => []
              | b3 :: r3 =>
                ((b0 - 240) * 262144 + (b1 - 128) * 4096
                 + (b2 - 128) * 64 + (b3 - 128))%N :: utf8_decode r3
              end
          end
      end
  end.

Definition py (s : string) : pystr :=
  utf8_decode (List.map N_of_ascii (list_ascii_of_string s)).

(** [s.startswith(p)] *)
Fixpoint startswith (p s : pystr) : bool :=
  match p, s with
  | [], _ => true
  | _ :: _, [] => false
  | a :: p', b :: s' => (a =? b)%N && startswith p' s'
  end.

(** [p in s] for two strings: [p] occurs in [s] as a contiguous run. *)
Fixpoint str_in (p s : pystr) : bool :=
  startswith p s ||
  match s with
  | [] => false
  | _ :: s' => str_in p s'
  end.

(** [s.endswith(suffix)] *)
Definition endswith (s suffix : pystr) : bool :=
  (length suffix <=? length s)%nat
  && bool_decide (drop (length s - length suffix) s = suffix).

(** [s.replace(c, '')] for a one-character [c]: every occurrence goes. *)
Definition remove_char (c : N) (s : pystr) : pystr :=
  List.filter (fun x => negb (x =? c)%N) s.

(** The code points [str.strip()] removes (CPython's
    [_PyUnicode_IsWhitespace]). *)
Definition is_space (c : N) : bool :=
  ((9 <=? c) && (c <=? 13) || (28 <=? c) && (c <=? 32)
   || (c =? 133) || (c =? 160) || (c =? 5760)
   || (8192 <=? c) && (c <=? 8202)
   || (c =? 8232) || (c =? 8233) || (c =? 8239) || (c =? 8287)
   || (c =? 12288))%N.

Fixpoint lstrip (s : pystr) : pystr :=
  match s with
  | [] => []
  | c :: s' => if is_space c then lstrip s' else s
  end.

Definition rstrip (s : pystr) : pystr := rev (lstrip (rev s)).

Definition strip (s : pystr) : pystr := rstrip (lstrip s).

(** The line feed, ['\n']. *)
Definition LF : N := 10%N.

(** What [str.lower] does to the letters [A]-[Z]; the other code points
    are kept. *)
Definition ascii_lower (s : pystr) : pystr :=
  (fun c => if ((65 <=? c) && (c <=? 90))%N then (c + 32)%N else c) <$> s.

End PyStr.
Export PyStr.

(* ===================================================================== *)
(** * Exceptions and dynamically typed values *)
(* ===================================================================== *)

Module PyVal.

(** The exceptions the modelled code can meet: those Python raises on a
    value of the wrong shape, and those of the HTTP client and of the CSV
    reader. *)
Inductive exn :=
| KeyError | TypeError | AttributeError | IndexError
| ConnectionError | Timeout | JSONDecodeError
| FileNotFoundError | ParserError | EmptyDataError | UnicodeDecodeError.

Inductive result (A : Type) :=
| Ok (a : A)
| Raise (e : exn).
Arguments Ok {A} a.
Arguments Raise {A} e.

Definition bind {A B} (c : result A) (k : A -> result B) : result B :=
  match c with
  | Ok a => k a
  | Raise e => Raise e
  end.

Notation "'let*' x ':=' c 'in' k" := (bind c (fun x => k))
  (at level 10, x name, c at level 100, k at level 200).

(** [try: return c  except: return fallback] *)
Definition try_except {A} (c : result A) (fallback : A) : A :=
  match c with
  | Ok a => a
  | Raise _ => fallback
  end.

(** What [json()] can return, which is also what the script stores in the
    dictionaries it builds: [None], booleans, integers, floats, strings,
    lists and dictionaries with string keys. *)
#[local] Unset Elimination Schemes.
Inductive pyval :=
| PyNone
| PyBool (b : bool)
| PyInt (z : Z)
| PyFloat (f : float)
| PyStr (s : pystr)
| PyList (l : list pyval)
| PyDict (m : gmap pystr pyval).
#[local] Set Elimination Schemes.

(** [key in container] for a string [key]. Numbers, booleans and [None]
    are not containers: [TypeError]. *)
Definition py_in (key : pystr) (container : pyval) : result bool :=
  match container with
  | PyDict m => Ok (bool_decide (is_Some (m !! key)))
  | PyList l =>
    Ok (existsb (fun x => match x with
                          | PyStr s => bool_decide (s = key)
                          | _ => false
                          end) l)
  | PyStr s => Ok (str_in key s)
  | _ => Raise TypeError
  end.

(** [container[key]] for a string [key]: only a dictionary can be indexed
    by a string. *)
Definition py_getitem (container : pyval) (key : pystr) : result pyval :=
  match container with
  | PyDict m =>
    match m !! key with
    | Some v => Ok v
    | None => Raise KeyError
    end
  | _ => Raise TypeError
  end.

(** [container.get(key, default)]: only dictionaries have [get]. *)
Definition py_get (container : pyval) (key : pystr) (dflt : pyval)
  : result pyval :=
  match container with
  | PyDict m => Ok (default dflt (m !! key))
  | _ => Raise AttributeError
  end.

(** The values [for x in v] runs through. A dictionary yields its keys and
    a string its characters. (The keys come in the order of the map, not
    in Python's insertion order; the only loop of the script that could
    meet a dictionary here appends nothing for a string, whatever the
    order.) *)
Definition py_iter (v : pyval) : result (list pyval) :=
  match v with
  | PyList l => Ok l
  | PyDict m => Ok (PyStr <$> (map_to_list m).*1)
  | PyStr s => Ok ((fun c => PyStr [c]) <$> s)
  | _ => Raise TypeError
  end.

(** Python's [str.lower] applies the full Unicode case mapping; it is
    taken from the outside. *)
Class PyRuntime := { str_lower : pystr -> pystr }.

(** [v.lower()]: only strings have [lower]. *)
Definition py_lower `{PyRuntime} (v : pyval) : result pystr :=
  match v with
  | PyStr s => Ok (str_lower s)
  | _ => Raise AttributeError
  end.

End PyVal.
Export PyVal.

(* ===================================================================== *)
(** * The external data fetchers *)
(* ===================================================================== *)

Module Fetch.

(** The Overpass query text is an f-string over the tag selector, the
    radius and the two coordinates; the model keeps these four parts. *)
Record overpass_query := {
  q_tag : pystr;
  q_radius : pyval;
  q_lat : pyval;
  q_lng : pyval
}.

(** [requests.get(url)] and [requests.get(url, params={'data': query})]. *)
Inductive request :=
| Get (url : pystr)
| GetData (url : pystr) (query : overpass_query).

(** The network: what [requests.get(...).json()] gives for a request, the
    parsed body or the exception of the call or of the parse. The answer
    may depend on everything sent before. *)
Class Network := { http_json : list request -> request -> result pyval }.

(** A fetcher reads and extends the list of the requests sent so far. *)
Definition io (A : Type) : Type := list request -> A * list request.

Definition requests_get_json `{Network} (r : request) : io (result pyval) :=
  fun sent => (http_json sent r, sent ++ [r]).

Definition exchange_rate_url : pystr :=
  py "https://api.exchangerate-api.com/v4/latest/EUR".

Definition weather_url : pystr :=
  py "https://api.open-meteo.com/v1/forecast?latitude=52.52&longitude=13.41&current_weather=true".

Definition overpass_url : pystr := py "http://overpass-api.de/api/interpreter".

(** The body of the [try] of [get_exchange_rate] (lines 37-39), given the
    outcome of the request. *)
Definition rate_of_response (response : result pyval) : result pyval :=
  let* data := response in
  let* rates := py_getitem data (py "rates") in
  py_getitem rates (py "KRW").

(** [get_exchange_rate], lines 35-41. *)
Definition get_exchange_rate `{Network} : io pyval :=
  fun sent =>
    let (response, sent') := requests_get_json (Get exchange_rate_url) sent in
    (try_except (rate_of_response response) (PyFloat 1450.0%float), sent').

(** The dictionary [{"temperature": 15.0, "weathercode": 0}]. *)
Definition weather_fallback : pyval :=
  PyDict (list_to_map [(py "temperature", PyFloat 15.0%float);
                       (py "weathercode", PyInt 0)]).

(** The body of the [try] of [get_weather] (lines 46-48). *)
Definition weather_of_response (response : result pyval) : result pyval :=
  let* data := response in
  py_getitem data (py "current_weather").

(** [get_weather], lines 44-50. *)
Definition get_weather `{Network} : io pyval :=
  fun sent =>
    let (response, sent') := requests_get_json (Get weather_url) sent in
    (try_except (weather_of_response response) weather_fallback, sent').

(** ** The cuisine classifier (lines 85-89) *)

Definition western_keywords : list pystr :=
  [py "burger"; py "pizza"; py "italian"; py "french"; py "german";
   py "american"; py "steak"].

Definition asian_keywords : list pystr :=
  [py "chinese"; py "vietnamese"; py "thai"; py "japanese"; py "sushi";
   py "asian"; py "indian"].

Definition cafe_keywords : list pystr := [py "coffee"; py "cafe"; py "cake"].

(** [any(x in cuisine for x in keywords)] *)
Definition any_in (keywords : list pystr) (cuisine : pystr) : bool :=
  existsb (fun x => str_in x cuisine) keywords.

Definition classify (cuisine : pystr) : pystr :=
  if str_in (py "korean") cuisine then py "한식"
  else if any_in western_keywords cuisine then py "양식"
  else if any_in asian_keywords cuisine then py "아시안"
  else if any_in cafe_keywords cuisine then py "카페"
  else py "일반/기타".

(** The five labels the classifier can give, in the order of its rules. *)
Definition cuisine_classes : list pystr :=
  [py "한식"; py "양식"; py "아시안"; py "카페"; py "일반/기타"].

(** ** The places fetch (lines 53-104) *)

(** The double quote, which the tag selectors contain. *)
Definition dq : pystr := [34%N].

Definition restaurant_tag : pystr :=
  py "[" ++ dq ++ py "amenity" ++ dq ++ py "="
  ++ dq ++ py "restaurant" ++ dq ++ py "]".

Definition hotel_tag : pystr :=
  py "[" ++ dq ++ py "tourism" ++ dq ++ py "="
  ++ dq ++ py "hotel" ++ dq ++ py "]".

Definition tourism_tag : pystr :=
  py "[" ++ dq ++ py "tourism" ++ dq ++ py "~"
  ++ dq ++ py "attraction|museum|artwork|viewpoint" ++ dq ++ py "]".

(** Lines 56-63: the tag selector of a category, if it has one. *)
Definition category_tag (category : pystr) : option pystr :=
  if bool_decide (category = py "restaurant") then Some restaurant_tag
  else if bool_decide (category = py "hotel") then Some hotel_tag
  else if bool_decide (category = py "tourism") then Some tourism_tag
  else None.

(** Line 91: [cuisine_filter and "전체" not in cuisine_filter]. [None] and
    the empty list are falsy. *)
Definition filter_applies (cuisine_filter : option (list pystr)) : bool :=
  match cuisine_filter with
  | None => false
  | Some [] => false
  | Some l => negb (bool_decide (py "전체" ∈ l))
  end.

(** Line 92: [place_type not in cuisine_filter]. *)
Definition not_in_filter (place_type : pystr)
    (cuisine_filter : option (list pystr)) : bool :=
  match cuisine_filter with
  | None => true
  | Some l => negb (bool_decide (place_type ∈ l))
  end.

(** Lines 94-101: the dictionary appended to [results]. *)
Definition place_record (name lat lon : pyval) (category place_type
    cuisine : pystr) : pyval :=
  PyDict (list_to_map [(py "name", name);
                       (py "lat", lat);
                       (py "lng", lon);
                       (py "type", PyStr category);
                       (py "cuisine_type", PyStr place_type);
                       (py "raw_cuisine", PyStr cuisine)]).

(** Lines 83-89: the label of an element, before the filter. *)
Definition place_type_of (category cuisine : pystr) : pystr :=
  if bool_decide (category = py "restaurant") then classify cuisine
  else py "기타".

(** One turn of the loop (lines 79-101): [Ok None] when the element is
    passed over (no tags, no name, or [continue]), [Ok (Some record)] when
    a record is appended, [Raise] when a step raises. *)
Definition visit_element `{PyRuntime} (category : pystr)
    (cuisine_filter : option (list pystr)) (element : pyval)
  : result (option pyval) :=
  let* has_tags := py_in (py "tags") element in
  if negb has_tags then Ok None else
  let* tags := py_getitem element (py "tags") in
  let* has_name := py_in (py "name") tags in
  if negb has_name then Ok None else
  let* raw := py_get tags (py "cuisine") (PyStr (py "general")) in
  let* cuisine := py_lower raw in
  let* name := py_getitem tags (py "name") in
  let place_type := place_type_of category cuisine in
  if bool_decide (category = py "restaurant")
     && filter_applies cuisine_filter
     && not_in_filter place_type cuisine_filter
  then Ok None
  else
    let* lat := py_getitem element (py "lat") in
    let* lon := py_getitem element (py "lon") in
    Ok (Some (place_record name lat lon category place_type cuisine)).

(** The loop of line 78, with [results] as accumulator. *)
Fixpoint visit_elements `{PyRuntime} (category : pystr)
    (cuisine_filter : option (list pystr)) (elements : list pyval)
    (results : list pyval) : result (list pyval) :=
  match elements with
  | [] => Ok results
  | element :: rest =>
    let* r := visit_element category cuisine_filter element in
    visit_elements category cuisine_filter rest
      (match r with
       | Some record => results ++ [record]
       | None => results
       end)
  end.

(** The body of the [try] (lines 74-102), given the outcome of the
    request. *)
Definition places_of_response `{PyRuntime} (category : pystr)
    (cuisine_filter : option (list pystr)) (response : result pyval)
  : result (list pyval) :=
  let* data := response in
  let* elements := py_getitem data (py "elements") in
  let* elements := py_iter elements in
  visit_elements category cuisine_filter elements [].

(** Lines 65-74: the request for a tag selector around a point. *)
Definition places_request (tag : pystr) (lat lng radius_m : pyval)
  : request :=
  GetData overpass_url {| q_tag := tag; q_radius := radius_m;
                          q_lat := lat; q_lng := lng |}.

Definition get_osm_places `{PyRuntime} `{Network} (category : pystr)
    (lat lng radius_m : pyval) (cuisine_filter : option (list pystr))
  : io (list pyval) :=
  fun sent =>
    match category_tag category with
    | None => ([], sent)
    | Some tag =>
      let (response, sent') :=
        requests_get_json (places_request tag lat lng radius_m) sent in
      (try_except (places_of_response category cuisine_filter response) [],
       sent')
    end.

(** [record["cuisine_type"]] and [record["raw_cuisine"]], when they are
    strings. *)
Definition str_field (key : pystr) (record : pyval) : option pystr :=
  match py_getitem record key with
  | Ok (PyStr s) => Some s
  | _ => None
  end.

(** The test of line 92 on a finished record: its [cuisine_type] is in
    the selected list. *)
Definition selected (l : list pystr) (record : pyval) : bool :=
  match str_field (py "cuisine_type") record with
  | Some c => bool_decide (c ∈ l)
  | None => false
  end.

End Fetch.
Export Fetch.

(* ===================================================================== *)
(** * The crime statistics loader *)
(* ===================================================================== *)

Module Crime.

(** ** A pandas frame, as far as the loader uses one *)

(** A cell holds a string, a number or the missing value. *)
Inductive cell :=
| Str (s : pystr)
| Int (z : Z)
| Float (f : float)
| NaN.

(** [read_csv] gives a column of strings (and missing values) the dtype
    [object] and a column of numbers a numeric dtype; a column read with
    [dtype=str] is [object] whatever it holds. *)
Inductive dtype := DObject | DInt64 | DFloat64 | DBool.

(** The header, the dtype of each column, and the rows, each with its
    index label and its cells in the order of the header. *)
Record DataFrame := {
  columns : list pystr;
  dtypes : list dtype;
  rows : list (nat * list cell)
}.

(** [pd.DataFrame()] *)
Definition empty_frame : DataFrame :=
  {| columns := []; dtypes := []; rows := [] |}.

(** One column: its dtype and its values under their index labels. *)
Record Series := {
  s_dtype : dtype;
  s_values : list (nat * cell)
}.

(** [df[name]] is a Series when one column has the name, and a frame when
    several have it. *)
Inductive selection :=
| OneColumn (s : Series)
| SeveralColumns (positions : list nat).

(** The positions of the columns called [name]. *)
Definition positions (name : pystr) (header : list pystr) : list nat :=
  List.filter (fun j => bool_decide (header !! j = Some name))
              (seq 0 (length header)).

Definition cell_at (j : nat) (cells : list cell) : cell :=
  default NaN (cells !! j).

Definition column_at (df : DataFrame) (j : nat) : Series :=
  {| s_dtype := default DObject (dtypes df !! j);
     s_values := (fun r => (r.1, cell_at j r.2)) <$> rows df |}.

(** [df[name]]: [KeyError] when no column has the name. *)
Definition df_getitem (df : DataFrame) (name : pystr) : result selection :=
  match positions name (columns df) with
  | [] => Raise KeyError
  | [j] => Ok (OneColumn (column_at df j))
  | js => Ok (SeveralColumns js)
  end.

(** The [.str] accessor: a frame has none, and a Series has one only with
    the dtype [object]. *)
Definition str_accessor (sel : selection) : result Series :=
  match sel with
  | OneColumn s =>
    match s_dtype s with
    | DObject => Ok s
    | _ => Raise AttributeError
    end
  | SeveralColumns _ => Raise AttributeError
  end.

(** [.str.endswith(pat, na=False)] on one value: whatever is not a string
    gives the [na] value. *)
Definition cell_endswith (pat : pystr) (c : cell) : bool :=
  match c with
  | Str s => endswith s pat
  | _ => false
  end.

(** [.str.strip()] on one value: whatever is not a string gives the
    missing value. *)
Definition cell_strip (c : cell) : cell :=
  match c with
  | Str s => Str (strip s)
  | _ => NaN
  end.

(** [df[mask]] for a boolean mask over the rows. *)
Fixpoint boolean_index {A} (rs : list A) (mask : list bool) : list A :=
  match rs, mask with
  | r :: rs', b :: mask' =>
    if b then r :: boolean_index rs' mask' else boolean_index rs' mask'
  | _, _ => []
  end.

(** [df.rename(columns=mapping)]: names outside the mapping stay. *)
Definition rename (mapping : gmap pystr pystr) (df : DataFrame)
  : DataFrame :=
  {| columns := (fun c => default c (mapping !! c)) <$> columns df;
     dtypes := dtypes df;
     rows := rows df |}.

(** [df[name] = f(df[name])] at the one position [j] of the column. *)
Definition update_column (j : nat) (f : cell -> cell) (df : DataFrame)
  : DataFrame :=
  {| columns := columns df;
     dtypes := dtypes df;
     rows := (fun r => (r.1, alter f j r.2)) <$> rows df |}.

(** [df[[name1; name2; ...]]]: the columns with these names, label by
    label; [KeyError] when a label names no column. *)
Fixpoint select_positions (labels : list pystr) (header : list pystr)
  : result (list nat) :=
  match labels with
  | [] => Ok []
  | name :: rest =>
    match positions name header with
    | [] => Raise KeyError
    | js => let* ks := select_positions rest header in Ok (js ++ ks)
    end
  end.

Definition df_select (df : DataFrame) (labels : list pystr)
  : result DataFrame :=
  let* js := select_positions labels (columns df) in
  Ok {| columns := (fun j => default [] (columns df !! j)) <$> js;
        dtypes := (fun j => default DObject (dtypes df !! j)) <$> js;
        rows := (fun r => (r.1, (fun j => cell_at j r.2) <$> js))
                  <$> rows df |}.

(** ** The loader (lines 107-152) *)

(** The file system: what [pd.read_csv(csv_file, dtype={code column: str})]
    gives, a frame or the exception of the read or of the parse. *)
Class FileSystem := { read_csv : pystr -> result DataFrame }.

Definition code_column : pystr := py "LOR-Schlüssel (Bezirksregion)".
Definition name_column : pystr := py "Bezeichnung (Bezirksregion)".
Definition District : pystr := py "District".
Definition Total_Crime : pystr := py "Total_Crime".

(** Line 122: [c.replace('\n', '').strip()] *)
Definition normalize_header (c : pystr) : pystr := strip (remove_char LF c).

(** Line 125: the normalized names holding both fragments. *)
Definition total_columns (header : list pystr) : list pystr :=
  List.filter (fun c => str_in (py "Straftaten") c
                        && str_in (py "insgesamt") c) header.

(** Line 122 on the frame. *)
Definition normalize_columns (df : DataFrame) : DataFrame :=
  {| columns := normalize_header <$> columns df;
     dtypes := dtypes df;
     rows := rows df |}.

(** The region code of a row of the frame as read: its cell under the
    column that line 135 reads, the one called [code_column] once the
    header is normalized. *)
Definition region_code (header : list pystr) (cells : list cell) : cell :=
  match positions code_column (normalize_header <$> header) with
  | j :: _ => cell_at j cells
  | [] => NaN
  end.

(** Line 135: the rows whose code ends in [0000]. *)
Definition district_rows (df : DataFrame) : result DataFrame :=
  let* sel := df_getitem df code_column in
  let* codes := str_accessor sel in
  let mask := (fun v => cell_endswith (py "0000") v.2) <$> s_values codes in
  Ok {| columns := columns df;
        dtypes := dtypes df;
        rows := boolean_index (rows df) mask |}.

(** Lines 138-148. *)
Definition district_table (df_district : DataFrame) (total_col : pystr)
  : result DataFrame :=
  let df_district :=
    rename (<[total_col := Total_Crime]> (<[name_column := District]> ∅))
           df_district in
  let* sel := df_getitem df_district District in
  let* _ := str_accessor sel in
  let df_district :=
    match positions District (columns df_district) with
    | j :: _ => update_column j cell_strip df_district
    | [] => df_district
    end in
  df_select df_district [District; Total_Crime].

(** Lines 135-148, after the total column is found. *)
Definition process_crime_frame (df : DataFrame) (total_col : pystr)
  : result DataFrame :=
  let* df_district := district_rows df in
  district_table df_district total_col.

(** The message of [st.error] at line 127. *)
Definition missing_total_message : pystr :=
  py "CSV에서 범죄 총계 컬럼을 찾을 수 없습니다.".

(** The loader returns its frame and the messages it showed with
    [st.error]. *)
Definition load_and_process_crime_data `{FileSystem} (csv_file : pystr)
  : DataFrame * list pystr :=
  match read_csv csv_file with
  | Raise _ => (empty_frame, [])
  | Ok df =>
    let df := normalize_columns df in
    match total_columns (columns df) with
    | [] => (empty_frame, [missing_total_message])
    | total_col :: _ =>
      (try_except (process_crime_frame df total_col) empty_frame, [])
    end
  end.

End Crime.
Export Crime.

(* ===================================================================== *)
(** * The session state and the two boards *)
(* ===================================================================== *)

Module Session.

(** [{"place": rec_place, "desc": rec_desc}] *)
Record recommendation := {
  place : pystr;
  desc : pystr
}.

(** [{"role": ..., "content": ...}] *)
Record chat_message := {
  role : pystr;
  content : pystr
}.

(** [st.session_state], with the five keys of lines 235-239. *)
Record session_state := {
  reviews : gmap pystr (list pystr);
  recommendations : list recommendation;
  messages : list chat_message;
  map_center : pyval * pyval;
  search_marker : option pyval
}.

Definition set_reviews (f : gmap pystr (list pystr) -> gmap pystr (list pystr))
    (st : session_state) : session_state :=
  {| reviews := f (reviews st);
     recommendations := recommendations st;
     messages := messages st;
     map_center := map_center st;
     search_marker := search_marker st |}.

Definition set_recommendations
    (f : list recommendation -> list recommendation)
    (st : session_state) : session_state :=
  {| reviews := reviews st;
     recommendations := f (recommendations st);
     messages := messages st;
     map_center := map_center st;
     search_marker := search_marker st |}.

(** [l.insert(i, x)] for [i >= 0]: an index past the end appends. *)
Definition list_insert_at {A} (i : nat) (x : A) (l : list A) : list A :=
  take i l ++ x :: drop i l.

(** [del l[i]] for [i >= 0]: [IndexError] out of range. *)
Definition list_del {A} (i : nat) (l : list A) : result (list A) :=
  if decide (i < length l) then Ok (delete i l) else Raise IndexError.

(** [d[key]] on a dictionary of the state. *)
Definition dict_getitem {V} (d : gmap pystr V) (key : pystr) : result V :=
  match d !! key with
  | Some v => Ok v
  | None => Raise KeyError
  end.

(** What the user did to start the run of the script: nothing on this
    board, a form submitted, or the delete button of one line pressed.
    The buttons of a board have the keys [del_..._0], [del_..._1], ...;
    the event names the number in the key. *)
Inductive review_event :=
| NoReviewEvent
| SubmitReview (txt : pystr)
| PressDeleteReview (i : nat).

Inductive recommend_event :=
| NoRecommendEvent
| SubmitRecommendation (rec_place rec_desc : pystr)
| PressDeleteRecommendation (i : nat).

(** The loops of lines 415-420 and 433-438: one button for each entry of
    the list, numbered from [i]; the pressed one deletes its entry of
    [whole] and the run ends ([st.rerun()]). [None]: no button of the
    loop was the pressed one. *)
Fixpoint delete_buttons {A} (pressed : option nat) (i : nat)
    (shown : list A) (whole : list A) : result (option (list A)) :=
  match shown with
  | [] => Ok None
  | _ :: rest =>
    if bool_decide (pressed = Some i)
    then let* l := list_del i whole in Ok (Some l)
    else delete_buttons pressed (S i) rest whole
  end.

(** Lines 403-420: the review board for the selected place. *)
Definition review_board (sel_place : pystr) (ev : review_event)
    (st : session_state) : result session_state :=
  if bool_decide (sel_place = []) then Ok st
  else
    let st :=
      if bool_decide (is_Some (reviews st !! sel_place)) then st
      else set_reviews (insert sel_place []) st in
    match ev with
    | SubmitReview txt =>
      let* l := dict_getitem (reviews st) sel_place in
      Ok (set_reviews (insert sel_place (l ++ [txt])) st)
    | _ =>
      let* l := dict_getitem (reviews st) sel_place in
      match l with
      | [] => Ok st
      | _ =>
        let pressed := match ev with
                       | PressDeleteReview i => Some i
                       | _ => None
                       end in
        let* r := delete_buttons pressed 0 l l in
        match r with
        | Some l' => Ok (set_reviews (insert sel_place l') st)
        | None => Ok st
        end
      end
    end.

(** Lines 426-438: the recommendation board. *)
Definition recommend_board (ev : recommend_event) (st : session_state)
  : result session_state :=
  match ev with
  | SubmitRecommendation rec_place rec_desc =>
    Ok (set_recommendations
          (list_insert_at 0 {| place := rec_place; desc := rec_desc |}) st)
  | _ =>
    let pressed := match ev with
                   | PressDeleteRecommendation i => Some i
                   | _ => None
                   end in
    let l := recommendations st in
    let* r := delete_buttons pressed 0 l l in
    match r with
    | Some l' => Ok (set_recommendations (fun _ => l') st)
    | None => Ok st
    end
  end.

End Session.
Export Session.

(* ===================================================================== *)
(** * The rest of the page: display, search, chat, catalog names *)
(* ===================================================================== *)

Module Page.

(** ** More of Python's values *)

(** [bool(v)]: what [if v:] tests. A float is false when it equals zero
    (so [-0.0] is false and a NaN is true). *)
Definition py_truthy (v : pyval) : bool :=
  match v with
  | PyNone => false
  | PyBool b => b
  | PyInt z => negb (z =? 0)%Z
  | PyFloat f => negb (PrimFloat.eqb f 0%float)
  | PyStr s => negb (bool_decide (s = []))
  | PyList l => match l with [] => false | _ => true end
  | PyDict m => negb (bool_decide (m = ∅))
  end.

(** [container[i]] for an index [i >= 0]: a list gives its element, a
    string its character; a dictionary of string keys has no such key. *)
Definition py_getitem_int (container : pyval) (i : nat) : result pyval :=
  match container with
  | PyList l =>
    match l !! i with
    | Some v => Ok v
    | None => Raise IndexError
    end
  | PyStr s =>
    match s !! i with
    | Some c => Ok (PyStr [c])
    | None => Raise IndexError
    end
  | PyDict _ => Raise KeyError
  | _ => Raise TypeError
  end.

(** [a == s] for a string [s]: only the same string is equal to it. *)
Definition py_eq_str (a : pyval) (s : pystr) : bool :=
  match a with
  | PyStr t => bool_decide (t = s)
  | _ => false
  end.

(** The conversions behind [float(v)]: the parse of a string and the
    rounding of an integer, each with the exceptions it may raise. *)
Class FloatRuntime := {
  float_of_str : pystr -> result float;
  float_of_int : Z -> result float
}.

(** [float(v)] *)
Definition py_float `{FloatRuntime} (v : pyval) : result float :=
  match v with
  | PyFloat f => Ok f
  | PyInt z => float_of_int z
  | PyBool b => Ok (if b then 1%float else 0%float)
  | PyStr s => float_of_str s
  | _ => Raise TypeError
  end.

(** ** The two metrics (lines 242-248) *)

(** Line 248: [w['temperature']], outside any [try]. *)
Definition temperature_metric `{Network} : io (result pyval) :=
  fun sent =>
    let (w, sent') := get_weather sent in
    (py_getitem w (py "temperature"), sent').

(** ** The layers of the exploration map (lines 314-346) *)

(** Lines 319-321: the colour of a restaurant marker. *)
Definition marker_color (p : pyval) : result pystr :=
  let* c := py_getitem p (py "cuisine_type") in
  if py_eq_str c (py "한식") then Ok (py "red")
  else
    let* c := py_getitem p (py "cuisine_type") in
    if py_eq_str c (py "카페") then Ok (py "beige")
    else Ok (py "green").

(** What a marker reads of a place: its name and its two coordinates
    (lines 323-325, 334-335 and 343-344). *)
Definition marker_fields (p : pyval) : result (pyval * pyval * pyval) :=
  let* lat := py_getitem p (py "lat") in
  let* lng := py_getitem p (py "lng") in
  let* name := py_getitem p (py "name") in
  Ok (lat, lng, name).


(** ** The place search (lines 162-172 and 258-265) *)

(** The geocoding service: what
    [requests.get(url, params={'q': query, 'format': 'json', 'limit': 1},
    headers=...).json()] gives for a query, after the queries asked
    before. *)
Class Geocoder := { nominatim_json : list pystr -> pystr -> result pyval }.

(** The body of the [try] of [search_location]: [None] when [res] is
    falsy. *)
Definition location_of_response `{FloatRuntime} (response : result pyval)
  : result (option (pyval * pyval * pyval)) :=
  let* res := response in
  if py_truthy res then
    let* first := py_getitem_int res 0 in
    let* lat := py_getitem first (py "lat") in
    let* lat := py_float lat in
    let* first := py_getitem_int res 0 in
    let* lon := py_getitem first (py "lon") in
    let* lon := py_float lon in
    let* first := py_getitem_int res 0 in
    let* name := py_getitem first (py "display_name") in
    Ok (Some (PyFloat lat, PyFloat lon, name))
  else Ok None.

(** [search_location], lines 162-172; the state is the list of the
    queries asked. *)
Definition search_location `{FloatRuntime} `{Geocoder} (query : pystr)
  : list pystr -> (pyval * pyval * pyval) * list pystr :=
  fun asked =>
    (match location_of_response (nominatim_json asked query) with
     | Ok (Some found) => found
     | _ => (PyNone, PyNone, PyNone)
     end,
     asked ++ [query]).

(** What the sidebar shows after a search. *)
Inductive sidebar_message :=
| NoSidebarMessage
| SidebarSuccess (name : pyval)
| SidebarError.

Definition set_search (center : pyval * pyval) (marker : option pyval)
    (st : session_state) : session_state :=
  {| reviews := reviews st;
     recommendations := recommendations st;
     messages := messages st;
     map_center := center;
     search_marker := marker |}.

(** The dictionary [{"lat": lat, "lng": lng, "name": name}]. *)
Definition marker_dict (lat lng name : pyval) : pyval :=
  PyDict (list_to_map [(py "lat", lat); (py "lng", lng); (py "name", name)]).

(** Lines 258-265. *)
Definition search_box `{FloatRuntime} `{Geocoder} (search_query : pystr)
    (st : session_state)
  : list pystr -> (session_state * sidebar_message) * list pystr :=
  fun asked =>
    if bool_decide (search_query = []) then ((st, NoSidebarMessage), asked)
    else
      let (found, asked') :=
        search_location (search_query ++ py " Berlin") asked in
      let '(lat, lng, name) := found in
      if py_truthy lat && py_truthy lng
      then ((set_search (lat, lng) (Some (marker_dict lat lng name)) st,
             SidebarSuccess name), asked')
      else ((st, SidebarError), asked').

(** ** The chat (lines 154-160 and 444-452) *)

(** The key of the secrets and the generative service: what
    [GenerativeModel('gemini-pro').generate_content(prompt).text] gives
    for a prompt, after the prompts sent before. *)
Class Gemini := {
  GEMINI_API_KEY : pystr;
  gemini_text : list pystr -> pystr -> result pystr
}.

Definition key_needed : pystr := py "API 키가 필요합니다.".
Definition ai_error : pystr := py "AI 응답 오류".

(** [get_gemini_response], lines 154-160; the state is the list of the
    prompts sent to the service. *)
Definition get_gemini_response `{Gemini} (prompt : pystr)
  : list pystr -> pystr * list pystr :=
  fun prompts =>
    if bool_decide (GEMINI_API_KEY = []) then (key_needed, prompts)
    else (try_except (gemini_text prompts prompt) ai_error,
          prompts ++ [prompt]).

Definition set_messages (f : list chat_message -> list chat_message)
    (st : session_state) : session_state :=
  {| reviews := reviews st;
     recommendations := recommendations st;
     messages := f (messages st);
     map_center := map_center st;
     search_marker := search_marker st |}.

(** Lines 446-452: [chat_input] gives [None] or the text typed. *)
Definition chat_board `{Gemini} (prompt : option pystr)
    (st : session_state) : list pystr -> session_state * list pystr :=
  fun prompts =>
    match prompt with
    | None => (st, prompts)
    | Some [] => (st, prompts)
    | Some p =>
      let st :=
        set_messages (fun l => l ++ [{| role := py "user"; content := p |}])
                     st in
      let (resp, prompts') := get_gemini_response p prompts in
      (set_messages
         (fun l => l ++ [{| role := py "assistant"; content := resp |}]) st,
       prompts')
    end.

(** ** The names of the review selector (line 396) *)

(** [s.split(sep)] for a separator [sep] of the two characters [a] and
    [b]: the pieces between the occurrences of [sep], found from the left
    and not overlapping. [piece] holds, reversed, the characters of the
    piece being read. *)
Fixpoint split2 (a b : N) (s : pystr) (piece : pystr) : list pystr :=
  match s with
  | [] => [rev piece]
  | c :: s' =>
    match s' with
    | [] => [rev (c :: piece)]
    | d :: s'' =>
      if ((c =? a) && (d =? b))%N
      then rev piece :: split2 a b s'' []
      else split2 a b s' (c :: piece)
    end
  end.

(** The full stop and the space of the separator [". "]. *)
Definition FULL_STOP : N := 46%N.
Definition SPACE : N := 32%N.

(** [name.split(". ")[1] if ". " in name else name] *)
Definition review_choice (name : pystr) : result pystr :=
  if str_in [FULL_STOP; SPACE] name
  then
    match split2 FULL_STOP SPACE name [] !! 1 with
    | Some piece => Ok piece
    | None => Raise IndexError
    end
  else Ok name.

End Page.
Export Page.

(* ===================================================================== *)
(** * Sample data *)
(* ===================================================================== *)

Module Samples.

(** A case mapping that lowers the letters [A]-[Z] and keeps the rest. *)
Definition ascii_runtime : PyRuntime := {| str_lower := ascii_lower |}.

(** A network with one answer for every request. *)
Definition constant_network (answer : result pyval) : Network :=
  {| http_json := fun _ _ => answer |}.

(** An Overpass element with a name, a cuisine tag and coordinates. *)
Definition osm_tags (name cuisine : string) : gmap pystr pyval :=
  list_to_map [(py "name", PyStr (py name));
               (py "cuisine", PyStr (py cuisine))].

Definition osm_node (name cuisine : string) : gmap pystr pyval :=
  list_to_map [(py "lat", PyFloat 52.5%float);
               (py "lon", PyFloat 13.5%float);
               (py "tags", PyDict (osm_tags name cuisine))].

Definition osm_response (elements : list pyval) : pyval :=
  PyDict (list_to_map [(py "elements", PyList elements)]).

Definition seoul_garden : pyval := PyDict (osm_node "Seoul Garden" "Korean;Pizza").
Definition da_mario : pyval := PyDict (osm_node "Da Mario" "italian").
Definition adlon : pyval := PyDict (osm_node "Adlon" "regional").

Definition two_restaurants : Network :=
  constant_network (Ok (osm_response [seoul_garden; da_mario])).

Definition one_hotel : Network :=
  constant_network (Ok (osm_response [adlon])).

(** The records the place fetch builds for the three elements, the first
    two in a restaurant fetch and the last in a hotel fetch. *)
Definition seoul_garden_record : pyval :=
  place_record (PyStr (py "Seoul Garden")) (PyFloat 52.5%float)
    (PyFloat 13.5%float) (py "restaurant") (py "한식") (py "korean;pizza").

Definition da_mario_record : pyval :=
  place_record (PyStr (py "Da Mario")) (PyFloat 52.5%float)
    (PyFloat 13.5%float) (py "restaurant") (py "양식") (py "italian").

Definition adlon_record : pyval :=
  place_record (PyStr (py "Adlon")) (PyFloat 52.5%float)
    (PyFloat 13.5%float) (py "hotel") (py "기타") (py "regional").

Definition berlin_lat : pyval := PyFloat 52.5%float.
Definition berlin_lng : pyval := PyFloat 13.5%float.
Definition radius_3000 : pyval := PyInt 3000.

(** A crime table of two rows, the district row of Mitte and the row of
    one of its regions; the header of the total column has a line break. *)
Definition crime_frame : DataFrame :=
  {| columns := [code_column; name_column;
                 py "Straftaten " ++ [LF] ++ py "-insgesamt-"];
     dtypes := [DObject; DObject; DInt64];
     rows := [(0, [Str (py "010000"); Str (py " Mitte "); Int 120]);
              (1, [Str (py "011001"); Str (py "Tiergarten Süd"); Int 40])] |}.

(** The same table without the total column. *)
Definition frame_without_total : DataFrame :=
  {| columns := [code_column; name_column; py "Raub"];
     dtypes := [DObject; DObject; DInt64];
     rows := [(0, [Str (py "010000"); Str (py "Mitte"); Int 7])] |}.

(** A file system with these two tables and nothing else. *)
Definition two_files : FileSystem :=
  {| read_csv := fun csv_file =>
       if bool_decide (csv_file = py "berlin_crime_2024.csv")
       then Ok crime_frame
       else if bool_decide (csv_file = py "no_total.csv")
       then Ok frame_without_total
       else Raise FileNotFoundError |}.

(** What the loader makes of [crime_frame]. *)
Definition crime_table : DataFrame :=
  {| columns := [District; Total_Crime];
     dtypes := [DObject; DInt64];
     rows := [(0, [Str (py "Mitte"); Int 120])] |}.

(** A session with two reviews of one place and nothing else. *)
Definition two_reviews : session_state :=
  {| reviews := {[ py "Mauerpark" := [py "great"; py "crowded"] ]};
     recommendations := [];
     messages := [];
     map_center := (PyFloat 52.5%float, PyFloat 13.5%float);
     search_marker := None |}.

End Samples.

Module MoreSamples.



Definition windy_answer : pyval :=
  PyDict (list_to_map
            [(py "current_weather",
              PyDict (list_to_map [(py "windspeed", PyFloat 7.5%float)]))]).

Definition windy_network : Network :=
  Samples.constant_network (Ok windy_answer).

(** A named element without coordinates, and one without a cuisine tag. *)
Definition no_coordinates : pyval :=
  PyDict (list_to_map [(py "tags", PyDict (Samples.osm_tags "Nowhere" "thai"))]).

Definition plain_tags : gmap pystr pyval :=
  list_to_map [(py "name", PyStr (py "Kantine"))].

Definition plain_node : gmap pystr pyval :=
  list_to_map [(py "lat", PyFloat 52.5%float);
               (py "lon", PyFloat 13.5%float);
               (py "tags", PyDict plain_tags)].

Definition broken_second : Network :=
  Samples.constant_network
    (Ok (Samples.osm_response [Samples.seoul_garden; no_coordinates])).

(** An answer whose [elements] is a string. *)
Definition elements_text : Network :=
  Samples.constant_network
    (Ok (PyDict (list_to_map [(py "elements", PyStr (py "tags"))]))).

(** The crime table with its codes read as numbers. *)
Definition numeric_codes : DataFrame :=
  {| columns := [code_column ++ py " "; name_column;
                 py "Straftaten -insgesamt-"];
     dtypes := [DInt64; DObject; DInt64];
     rows := [(0, [Int 10000; Str (py "Mitte"); Int 120])] |}.

Definition numeric_file : FileSystem :=
  {| read_csv := fun _ => Ok numeric_codes |}.

(** A [float] for the few texts of the samples and for the integer 0;
    everything else is refused. *)
Definition sample_floats : FloatRuntime :=
  {| float_of_str := fun s =>
       if bool_decide (s = py "52.5") then Ok 52.5%float
       else if bool_decide (s = py "13.5") then Ok 13.5%float
       else if bool_decide (s = py "0.0") then Ok 0%float
       else Raise TypeError;
     float_of_int := fun z =>
       match z with
       | 0%Z => Ok 0%float
       | _ => Raise TypeError
       end |}.

(** A geocoder with one match for every query. *)
Definition gate_match : gmap pystr pyval :=
  list_to_map [(py "lat", PyStr (py "52.5"));
               (py "lon", PyStr (py "13.5"));
               (py "display_name", PyStr (py "Brandenburger Tor"))].

Definition one_match : Geocoder :=
  {| nominatim_json := fun _ _ => Ok (PyList [PyDict gate_match]) |}.

(** A geocoder whose match lies on the equator. *)
Definition equator_match : gmap pystr pyval :=
  list_to_map [(py "lat", PyStr (py "0.0"));
               (py "lon", PyStr (py "13.5"));
               (py "display_name", PyStr (py "Equator"))].

Definition on_equator : Geocoder :=
  {| nominatim_json := fun _ _ => Ok (PyList [PyDict equator_match]) |}.

(** No API key; and a key with a service that fails. *)
Definition no_key : Gemini :=
  {| GEMINI_API_KEY := []; gemini_text := fun _ _ => Ok (py "hello") |}.

Definition failing_gemini : Gemini :=
  {| GEMINI_API_KEY := py "key"; gemini_text := fun _ _ => Raise Timeout |}.

End MoreSamples.

(* ===================================================================== *)
(** * Properties of the fetchers and of the classifier *)
(* ===================================================================== *)

Section FetchFacts.
Context {runtime : PyRuntime} {network : Network}.

Lemma place_record_cuisine_type name lat lon category place_type cuisine :
  py_getitem (place_record name lat lon category place_type cuisine)
             (py "cuisine_type") = Ok (PyStr place_type).
Proof. reflexivity. Qed.

Lemma place_record_raw_cuisine name lat lon category place_type cuisine :
  py_getitem (place_record name lat lon category place_type cuisine)
             (py "raw_cuisine") = Ok (PyStr cuisine).
Proof. reflexivity. Qed.

Lemma classify_korean_first cuisine :
  str_in (py "korean") cuisine = true -> classify cuisine = py "한식".
Proof. intros Hk. unfold classify. by rewrite Hk. Qed.

(** C1. A tag whose lower-cased text contains [korean] is classified
    Korean ([한식]), whatever other keywords it contains; and the fetch of
    the restaurant category builds, for an element with that tag, the
    record whose [cuisine_type] is [한식]. *)
Theorem korean_tag_is_korean (raw : pystr) (name lat lon : pyval)
    (element tags : gmap pystr pyval) :
  str_in (py "korean") (str_lower raw) = true ->
  element !! py "tags" = Some (PyDict tags) ->
  tags !! py "name" = Some name ->
  tags !! py "cuisine" = Some (PyStr raw) ->
  element !! py "lat" = Some lat ->
  element !! py "lon" = Some lon ->
  classify (str_lower raw) = py "한식"
  /\ place_type_of (py "restaurant") (str_lower raw) = py "한식"
  /\ visit_element (py "restaurant") None (PyDict element)
     = Ok (Some (place_record name lat lon (py "restaurant") (py "한식")
                              (str_lower raw))).
Proof.
  intros Hk Htags Hname Hcuisine Hlat Hlon.
  pose proof (classify_korean_first _ Hk) as Hc.
  split; [done|]. split.
  - unfold place_type_of. by rewrite bool_decide_true.
  - unfold visit_element, py_in, py_getitem, py_get, py_lower, bind.
    rewrite Htags, Hname, Hcuisine, Hlat, Hlon.
    rewrite !bool_decide_true by eauto.
    cbn [negb default filter_applies andb id].
    unfold place_type_of. rewrite bool_decide_true by done.
    by rewrite Hc.
Qed.

(** The two examples of the rules: a tag with [italian] and [pizza] is
    western, and the tag [korean] wins over [sushi] and [cafe]. *)
Example classify_vegan_italian_pizza :
  classify (py "vegan, italian, pizza") = py "양식".
Proof. reflexivity. Qed.

Example classify_korean_sushi_cafe :
  classify (py "sushi;cafe;korean") = py "한식".
Proof. reflexivity. Qed.

(** C6. The classifier is a function from strings to the five labels:
    every string, the empty one included, gets one of them, and the five
    are distinct. *)
Theorem classify_total (cuisine : pystr) :
  classify cuisine ∈ cuisine_classes
  /\ NoDup cuisine_classes
  /\ length cuisine_classes = 5
  /\ classify (py "") = py "일반/기타".
Proof.
  split; [|split; [|split]].
  - unfold classify, cuisine_classes.
    repeat case_match; set_solver.
  - apply (bool_decide_unpack _). by vm_compute.
  - reflexivity.
  - reflexivity.
Qed.

(** ** Upper and lower case *)

Lemma startswith_app (p c : pystr) : startswith p (p ++ c) = true.
Proof.
  induction p as [|x p IH]; [done|].
  cbn [app startswith]. by rewrite N.eqb_refl.
Qed.

Lemma str_in_app (a p c : pystr) : str_in p (a ++ p ++ c) = true.
Proof.
  induction a as [|x a IH].
  - cbn [app]. destruct (p ++ c) eqn:Hpc.
    + destruct p; [done|discriminate].
    + cbn [str_in]. rewrite <- Hpc. by rewrite startswith_app.
  - cbn [app str_in]. rewrite IH. apply orb_true_r.
Qed.

Section AnyCase.

(** [str.lower] maps a run of ASCII characters to its lower-case form,
    wherever the run stands in the string. *)
Hypothesis lower_ascii_run :
  forall a b c : pystr,
    Forall (fun x => (x < 128)%N) b ->
    exists a' c', str_lower (a ++ b ++ c) = a' ++ ascii_lower b ++ c'.

(** A tag that holds the word in any mix of upper and lower case is
    classified Korean. *)
Lemma korean_any_case (a b c : pystr) :
  ascii_lower b = py "korean" ->
  classify (str_lower (a ++ b ++ c)) = py "한식".
Proof using lower_ascii_run.
  intros Hb. apply classify_korean_first.
  destruct (lower_ascii_run a b c) as (a' & c' & ->).
  - apply Forall_forall. intros x Hx.
    assert (Forall (fun y => (y < 128)%N) (ascii_lower b)) as Hall
      by (rewrite Hb; apply (bool_decide_unpack _); by vm_compute).
    unfold ascii_lower in Hall. rewrite Forall_fmap, Forall_forall in Hall.
    specialize (Hall x Hx). cbn in Hall.
    destruct ((65 <=? x)%N && (x <=? 90)%N) eqn:Hup; lia.
  - rewrite Hb. apply str_in_app.
Qed.

End AnyCase.

(** The mapping of the letters [A]-[Z] alone is such a case mapping. *)
Lemma ascii_lower_run (a b c : pystr) :
  Forall (fun x => (x < 128)%N) b ->
  exists a' c', ascii_lower (a ++ b ++ c) = a' ++ ascii_lower b ++ c'.
Proof.
  intros _. exists (ascii_lower a), (ascii_lower c).
  unfold ascii_lower. by rewrite !fmap_app.
Qed.

(** ** The place fetch *)

Lemma get_osm_places_known category tag lat lng radius_m f sent :
  category_tag category = Some tag ->
  get_osm_places category lat lng radius_m f sent
  = (try_except
       (places_of_response category f
          (http_json sent (places_request tag lat lng radius_m))) [],
     sent ++ [places_request tag lat lng radius_m]).
Proof. intros Htag. unfold get_osm_places. by rewrite Htag. Qed.

Lemma category_tag_restaurant :
  category_tag (py "restaurant") = Some restaurant_tag.
Proof. reflexivity. Qed.

(** C10. For a category that is none of [restaurant], [hotel] and
    [tourism] the fetch returns the empty list and leaves the list of
    sent requests as it was: nothing is requested. *)
Theorem unknown_category_no_request (category : pystr)
    (lat lng radius_m : pyval) (cuisine_filter : option (list pystr))
    (sent : list request) :
  category <> py "restaurant" ->
  category <> py "hotel" ->
  category <> py "tourism" ->
  get_osm_places category lat lng radius_m cuisine_filter sent = ([], sent).
Proof.
  intros Hr Hh Ht. unfold get_osm_places, category_tag.
  by rewrite !bool_decide_false.
Qed.

(** ** The category filter *)

Lemma visit_element_filter_off category f element :
  filter_applies f = false ->
  visit_element category f element = visit_element category None element.
Proof.
  intros Hf. unfold visit_element. rewrite Hf.
  change (filter_applies None) with false.
  rewrite !andb_false_r. reflexivity.
Qed.

Lemma visit_element_other_category category f element :
  category <> py "restaurant" ->
  visit_element category f element = visit_element category None element.
Proof.
  intros Hc. unfold visit_element.
  rewrite (bool_decide_false _ Hc). reflexivity.
Qed.

Lemma visit_elements_ext category f g elements results :
  (forall element,
     visit_element category f element = visit_element category g element) ->
  visit_elements category f elements results
  = visit_elements category g elements results.
Proof.
  intros Hext. revert results.
  induction elements as [|element rest IH]; intros results; [done|].
  cbn [visit_elements]. rewrite Hext.
  destruct (visit_element category g element) as [r|e]; [|done].
  cbn [bind]. apply IH.
Qed.

Lemma selected_place_record l name lat lon category place_type cuisine :
  selected l (place_record name lat lon category place_type cuisine)
  = bool_decide (place_type ∈ l).
Proof. reflexivity. Qed.

Lemma visit_element_selected l element r :
  filter_applies (Some l) = true ->
  visit_element (py "restaurant") None element = Ok r ->
  visit_element (py "restaurant") (Some l) element
  = Ok (match r with
        | Some record => if selected l record then Some record else None
        | None => None
        end).
Proof.
  intros Hf. unfold visit_element. rewrite Hf.
  change (filter_applies None) with false.
  rewrite (bool_decide_true (py "restaurant" = py "restaurant")) by done.
  cbn [andb]. unfold bind, not_in_filter.
  repeat (case_match; simplify_eq; try done).
  all: intros ?; simplify_eq.
  all: rewrite selected_place_record in *.
  all: by destruct (bool_decide _).
Qed.

Lemma visit_elements_selected l elements results places :
  filter_applies (Some l) = true ->
  visit_elements (py "restaurant") None elements results = Ok places ->
  visit_elements (py "restaurant") (Some l) elements
                 (List.filter (selected l) results)
  = Ok (List.filter (selected l) places).
Proof.
  intros Hf. revert results.
  induction elements as [|element rest IH]; intros results.
  - cbn [visit_elements]. by intros [= ->].
  - cbn [visit_elements].
    destruct (visit_element (py "restaurant") None element) as [r|e] eqn:Hr;
      [|done].
    rewrite (visit_element_selected _ _ _ Hf Hr). cbn [bind].
    intros Hrest. specialize (IH _ Hrest).
    destruct r as [record|]; [|done].
    rewrite List.filter_app in IH. cbn [List.filter] in IH.
    destruct (selected l record); [done|].
    by rewrite app_nil_r in IH.
Qed.

(** What holds of every record a turn of the loop appends holds of the
    whole list. *)
Lemma visit_elements_Forall (P : pyval -> Prop) category f elements
    results places :
  (forall element record,
     visit_element category f element = Ok (Some record) -> P record) ->
  Forall P results ->
  visit_elements category f elements results = Ok places ->
  Forall P places.
Proof.
  intros Hstep. revert results.
  induction elements as [|element rest IH]; intros results Hres.
  - cbn [visit_elements]. by intros [= <-].
  - cbn [visit_elements].
    destruct (visit_element category f element) as [r|e] eqn:Hr; [|done].
    cbn [bind]. apply IH. destruct r as [record|]; [|done].
    apply Forall_app. split; [done|]. apply Forall_singleton. eauto.
Qed.

Lemma places_of_response_Forall (P : pyval -> Prop) category f response
    places :
  (forall element record,
     visit_element category f element = Ok (Some record) -> P record) ->
  places_of_response category f response = Ok places ->
  Forall P places.
Proof.
  intros Hstep. unfold places_of_response, bind.
  repeat (case_match; try done).
  by apply visit_elements_Forall.
Qed.

(** Every place of a fetch satisfies what every appended record does. *)
Lemma get_osm_places_Forall (P : pyval -> Prop) category lat lng radius_m
    f sent :
  (forall element record,
     visit_element category f element = Ok (Some record) -> P record) ->
  Forall P (get_osm_places category lat lng radius_m f sent).1.
Proof.
  intros Hstep. unfold get_osm_places.
  destruct (category_tag category) as [tag|]; [|by constructor].
  cbn [requests_get_json fst].
  destruct (places_of_response _ _ _) as [places|e] eqn:Hp;
    cbn [try_except]; [|by constructor].
  by eapply places_of_response_Forall.
Qed.

Lemma visit_element_kept l element record :
  filter_applies (Some l) = true ->
  visit_element (py "restaurant") (Some l) element = Ok (Some record) ->
  exists c, str_field (py "cuisine_type") record = Some c /\ c ∈ l.
Proof.
  intros Hf. unfold visit_element. rewrite Hf.
  rewrite (bool_decide_true (py "restaurant" = py "restaurant")) by done.
  cbn [andb]. unfold bind, not_in_filter.
  repeat (case_match; simplify_eq; try done).
  intros [= <-]. eexists. split; [reflexivity|].
  match goal with
  | Hn : negb (bool_decide _) = false |- _ =>
    apply negb_false_iff, bool_decide_eq_true in Hn; exact Hn
  end.
Qed.

Lemma filter_applies_spec l :
  filter_applies (Some l) = true <-> l <> [] /\ py "전체" ∉ l.
Proof.
  unfold filter_applies. destruct l as [|x l].
  - split; [done|]. by intros [Hne _].
  - rewrite negb_true_iff, bool_decide_eq_false.
    split; [by intros ?|by intros [_ ?]].
Qed.

Lemma places_of_response_ext category f g response :
  (forall element,
     visit_element category f element = visit_element category g element) ->
  places_of_response category f response
  = places_of_response category g response.
Proof.
  intros Hext. unfold places_of_response.
  destruct response as [data|e]; cbn [bind]; [|done].
  destruct (py_getitem data (py "elements")) as [v|e]; cbn [bind]; [|done].
  destruct (py_iter v) as [elements|e]; cbn [bind]; [|done].
  by apply visit_elements_ext.
Qed.

Lemma get_osm_places_ext category lat lng radius_m f g sent :
  (forall element,
     visit_element category f element = visit_element category g element) ->
  get_osm_places category lat lng radius_m f sent
  = get_osm_places category lat lng radius_m g sent.
Proof.
  intros Hext. unfold get_osm_places.
  destruct (category_tag category) as [tag|]; [|done].
  cbn [requests_get_json].
  by rewrite (places_of_response_ext _ f g).
Qed.

Lemma places_of_response_selected l response places :
  filter_applies (Some l) = true ->
  places_of_response (py "restaurant") None response = Ok places ->
  places_of_response (py "restaurant") (Some l) response
  = Ok (List.filter (selected l) places).
Proof.
  intros Hf. unfold places_of_response.
  destruct response as [data|e]; cbn [bind]; [|done].
  destruct (py_getitem data (py "elements")) as [v|e]; cbn [bind]; [|done].
  destruct (py_iter v) as [elements|e]; cbn [bind]; [|done].
  intros Hplaces.
  exact (visit_elements_selected l elements [] places Hf Hplaces).
Qed.

(** C2. The selected-category list of a restaurant fetch: when it is
    empty or holds [전체] the fetch gives what it gives without a list;
    otherwise every place it gives has its [cuisine_type] in the list, and
    of the places the fetch builds without a list it gives those whose
    [cuisine_type] is in the list, in their order. For any other category
    the list changes nothing. *)
Theorem cuisine_filter_contract (lat lng radius_m : pyval)
    (l : list pystr) (sent : list request) :
  (l = [] \/ py "전체" ∈ l ->
   get_osm_places (py "restaurant") lat lng radius_m (Some l) sent
   = get_osm_places (py "restaurant") lat lng radius_m None sent)
  /\ (l <> [] -> py "전체" ∉ l ->
      (forall record,
         record ∈ (get_osm_places (py "restaurant") lat lng radius_m
                                  (Some l) sent).1 ->
         exists c, str_field (py "cuisine_type") record = Some c /\ c ∈ l)
      /\ (forall places,
            places_of_response (py "restaurant") None
              (http_json sent
                 (places_request restaurant_tag lat lng radius_m))
            = Ok places ->
            (get_osm_places (py "restaurant") lat lng radius_m
                            (Some l) sent).1
            = List.filter (selected l) places))
  /\ (forall category,
        category <> py "restaurant" ->
        get_osm_places category lat lng radius_m (Some l) sent
        = get_osm_places category lat lng radius_m None sent).
Proof.
  split; [|split].
  - intros Hoff. apply get_osm_places_ext. intros element.
    apply visit_element_filter_off.
    destruct (filter_applies (Some l)) eqn:Hf; [|done].
    apply filter_applies_spec in Hf as [Hne Hall].
    by destruct Hoff.
  - intros Hne Hall.
    assert (filter_applies (Some l) = true) as Hf
      by by apply filter_applies_spec.
    split.
    + intros record Hin.
      pose proof (get_osm_places_Forall
        (fun r => exists c, str_field (py "cuisine_type") r = Some c /\ c ∈ l)
        (py "restaurant") lat lng radius_m (Some l) sent) as HF.
      rewrite Forall_forall in HF. apply HF; [|done].
      intros element r. by apply visit_element_kept.
    + intros places Hplaces.
      rewrite (get_osm_places_known _ _ _ _ _ _ _ category_tag_restaurant).
      cbn [fst].
      by rewrite (places_of_response_selected _ _ _ Hf Hplaces).
  - intros category Hc. apply get_osm_places_ext. intros element.
    by apply visit_element_other_category.
Qed.

(** ** The label of a record, category by category *)

Lemma visit_element_record category f element record :
  visit_element category f element = Ok (Some record) ->
  exists name lat lon cuisine,
    record = place_record name lat lon category
                          (place_type_of category cuisine) cuisine.
Proof.
  unfold visit_element, bind.
  repeat (case_match; simplify_eq; try done).
  all: intros [= <-]; eauto.
Qed.

(** C9, as the code has it. A record of a hotel or tourism fetch carries
    in [cuisine_type] the placeholder label [기타], which is a string and
    none of the five labels of the classifier; a record of a restaurant
    fetch carries the label the classifier gives to its [raw_cuisine]. No
    record carries [None]. *)
Theorem cuisine_type_by_category (category : pystr)
    (lat lng radius_m : pyval) (cuisine_filter : option (list pystr))
    (sent : list request) (record : pyval) :
  record ∈ (get_osm_places category lat lng radius_m cuisine_filter sent).1 ->
  (category = py "hotel" \/ category = py "tourism" ->
   py_getitem record (py "cuisine_type") = Ok (PyStr (py "기타"))
   /\ py "기타" ∉ cuisine_classes)
  /\ (category = py "restaurant" ->
      exists cuisine,
        py_getitem record (py "raw_cuisine") = Ok (PyStr cuisine)
        /\ py_getitem record (py "cuisine_type")
           = Ok (PyStr (classify cuisine)))
  /\ py_getitem record (py "cuisine_type") <> Ok PyNone.
Proof.
  intros Hin.
  pose proof (get_osm_places_Forall
    (fun r => exists name lat lon cuisine,
       r = place_record name lat lon category
                        (place_type_of category cuisine) cuisine)
    category lat lng radius_m cuisine_filter sent
    (visit_element_record category cuisine_filter)) as HF.
  rewrite Forall_forall in HF.
  destruct (HF _ Hin) as (name & la & lo & cuisine & ->).
  rewrite place_record_cuisine_type, place_record_raw_cuisine.
  split; [|split].
  - intros Hcat. split.
    + unfold place_type_of.
      rewrite bool_decide_false; [done|].
      by destruct Hcat as [-> | ->]; vm_compute.
    + apply (bool_decide_unpack _). by vm_compute.
  - intros ->. exists cuisine. split; [done|].
    unfold place_type_of. by rewrite bool_decide_true.
  - discriminate.
Qed.

(** ** The fallbacks *)

Lemma exchange_rate_fallback sent e :
  rate_of_response (http_json sent (Get exchange_rate_url)) = Raise e ->
  (get_exchange_rate sent).1 = PyFloat 1450.0%float.
Proof.
  intros He. unfold get_exchange_rate. cbn [requests_get_json fst].
  by rewrite He.
Qed.

Lemma weather_falls_back sent e :
  weather_of_response (http_json sent (Get weather_url)) = Raise e ->
  (get_weather sent).1 = weather_fallback.
Proof.
  intros He. unfold get_weather. cbn [requests_get_json fst].
  by rewrite He.
Qed.

Lemma places_fallback category lat lng radius_m cuisine_filter tag sent e :
  category_tag category = Some tag ->
  places_of_response category cuisine_filter
    (http_json sent (places_request tag lat lng radius_m)) = Raise e ->
  (get_osm_places category lat lng radius_m cuisine_filter sent).1 = [].
Proof.
  intros Htag He.
  rewrite (get_osm_places_known _ _ _ _ _ _ _ Htag). cbn [fst].
  by rewrite He.
Qed.

(** The three [try] bodies fail when the call itself fails. *)
Lemma bodies_fail_with_call category cuisine_filter e :
  rate_of_response (Raise e) = Raise e
  /\ weather_of_response (Raise e) = Raise e
  /\ places_of_response category cuisine_filter (Raise e) = Raise e.
Proof. done. Qed.

(** C5. When the call behind a fetcher fails, with whatever exception
    (the same holds when the body of the [try] fails on what the call
    returned), the fetcher returns its fallback and raises nothing: the
    float [1450.0] for the exchange rate, the dictionary of temperature
    [15.0] and weather code [0] for the weather, the empty list for the
    places. Two failures, each with its own exception and after whatever
    was sent before, give the same value. *)
Theorem fetchers_fall_back (sent sent' : list request) (e e' : exn)
    (category : pystr) (lat lng radius_m : pyval)
    (cuisine_filter : option (list pystr)) (tag : pystr) :
  http_json sent (Get exchange_rate_url) = Raise e ->
  http_json sent (Get weather_url) = Raise e ->
  http_json sent (places_request tag lat lng radius_m) = Raise e ->
  http_json sent' (Get exchange_rate_url) = Raise e' ->
  http_json sent' (Get weather_url) = Raise e' ->
  http_json sent' (places_request tag lat lng radius_m) = Raise e' ->
  category_tag category = Some tag ->
  ((get_exchange_rate sent).1 = PyFloat 1450.0%float
   /\ (get_weather sent).1 = weather_fallback
   /\ py_getitem weather_fallback (py "temperature")
      = Ok (PyFloat 15.0%float)
   /\ py_getitem weather_fallback (py "weathercode") = Ok (PyInt 0)
   /\ (get_osm_places category lat lng radius_m cuisine_filter sent).1 = [])
  /\ ((get_exchange_rate sent').1 = (get_exchange_rate sent).1
      /\ (get_weather sent').1 = (get_weather sent).1
      /\ (get_osm_places category lat lng radius_m cuisine_filter sent').1
         = (get_osm_places category lat lng radius_m cuisine_filter sent).1).
Proof.
  intros Hr Hw Hp Hr' Hw' Hp' Htag.
  assert (forall s x, http_json s (Get exchange_rate_url) = Raise x ->
            (get_exchange_rate s).1 = PyFloat 1450.0%float) as Hrate.
  { intros s x Hs. apply (exchange_rate_fallback s x). by rewrite Hs. }
  assert (forall s x, http_json s (Get weather_url) = Raise x ->
            (get_weather s).1 = weather_fallback) as Hweather.
  { intros s x Hs. apply (weather_falls_back s x). by rewrite Hs. }
  assert (forall s x,
            http_json s (places_request tag lat lng radius_m) = Raise x ->
            (get_osm_places category lat lng radius_m cuisine_filter s).1
            = []) as Hplaces.
  { intros s x Hs. apply (places_fallback _ _ _ _ _ tag s x Htag).
    by rewrite Hs. }
  split.
  - split; [exact (Hrate _ _ Hr)|].
    split; [exact (Hweather _ _ Hw)|].
    split; [reflexivity|].
    split; [reflexivity|].
    exact (Hplaces _ _ Hp).
  - rewrite (Hrate _ _ Hr), (Hrate _ _ Hr'), (Hweather _ _ Hw),
      (Hweather _ _ Hw'), (Hplaces _ _ Hp), (Hplaces _ _ Hp').
    repeat split; reflexivity.
Qed.

End FetchFacts.

(** With the ASCII case mapping, a tag with the word in mixed case. *)
Example korean_mixed_case :
  classify (ascii_lower (py "Best " ++ py "KoReAn" ++ py " BBQ;Pizza"))
  = py "한식".
Proof.
  apply (@korean_any_case Samples.ascii_runtime ascii_lower_run).
  reflexivity.
Qed.

Lemma korean_tag_is_korean_witness :
  @visit_element Samples.ascii_runtime (py "restaurant") None
                 Samples.seoul_garden
  = Ok (Some (place_record (PyStr (py "Seoul Garden"))
                           (PyFloat 52.5%float) (PyFloat 13.5%float)
                           (py "restaurant") (py "한식")
                           (py "korean;pizza"))).
Proof.
  refine (proj2 (proj2 (@korean_tag_is_korean Samples.ascii_runtime
            (py "Korean;Pizza") (PyStr (py "Seoul Garden"))
            (PyFloat 52.5%float) (PyFloat 13.5%float)
            (Samples.osm_node "Seoul Garden" "Korean;Pizza")
            (Samples.osm_tags "Seoul Garden" "Korean;Pizza")
            _ _ _ _ _ _)));
    vm_compute; reflexivity.
Defined.

Lemma unknown_category_no_request_witness :
  @get_osm_places Samples.ascii_runtime Samples.two_restaurants
    (py "bar") Samples.berlin_lat Samples.berlin_lng Samples.radius_3000
    (Some [py "한식"]) []
  = ([], []).
Proof.
  apply (@unknown_category_no_request Samples.ascii_runtime
           Samples.two_restaurants (py "bar"));
    vm_compute; discriminate.
Defined.

Lemma cuisine_filter_contract_witness :
  (@get_osm_places Samples.ascii_runtime Samples.two_restaurants
     (py "restaurant") Samples.berlin_lat Samples.berlin_lng
     Samples.radius_3000 (Some [py "한식"]) []).1
  = List.filter (selected [py "한식"])
                [Samples.seoul_garden_record; Samples.da_mario_record].
Proof.
  refine (proj2 (proj1 (proj2 (@cuisine_filter_contract
            Samples.ascii_runtime Samples.two_restaurants
            Samples.berlin_lat Samples.berlin_lng Samples.radius_3000
            [py "한식"] [])) _ _)
          [Samples.seoul_garden_record; Samples.da_mario_record] _).
  - discriminate.
  - vm_compute. intros Hin. apply list_elem_of_In in Hin.
    destruct Hin as [Heq|[]]. discriminate Heq.
  - vm_compute. reflexivity.
Defined.

(** C9, as the claim states it, fails: the one record of this hotel fetch
    holds the string [기타] in [cuisine_type], not [None]. *)
Lemma hotel_cuisine_type_not_null :
  (@get_osm_places Samples.ascii_runtime Samples.one_hotel (py "hotel")
     Samples.berlin_lat Samples.berlin_lng Samples.radius_3000 None []).1
  = [Samples.adlon_record]
  /\ py_getitem Samples.adlon_record (py "cuisine_type")
     = Ok (PyStr (py "기타"))
  /\ ~ (forall record,
          record ∈ (@get_osm_places Samples.ascii_runtime Samples.one_hotel
                      (py "hotel") Samples.berlin_lat Samples.berlin_lng
                      Samples.radius_3000 None []).1 ->
          py_getitem record (py "cuisine_type") = Ok PyNone).
Proof.
  assert ((@get_osm_places Samples.ascii_runtime Samples.one_hotel
             (py "hotel") Samples.berlin_lat Samples.berlin_lng
             Samples.radius_3000 None []).1 = [Samples.adlon_record]) as Hrun
    by (vm_compute; reflexivity).
  split; [exact Hrun|]. split; [reflexivity|].
  rewrite Hrun. intros Hall.
  specialize (Hall Samples.adlon_record (list_elem_of_here _ _)).
  discriminate Hall.
Qed.

Lemma cuisine_type_by_category_witness :
  py_getitem Samples.adlon_record (py "cuisine_type")
  = Ok (PyStr (py "기타"))
  /\ py "기타" ∉ cuisine_classes.
Proof.
  refine (proj1 (@cuisine_type_by_category Samples.ascii_runtime
            Samples.one_hotel (py "hotel") Samples.berlin_lat
            Samples.berlin_lng Samples.radius_3000 None []
            Samples.adlon_record _) _).
  - vm_compute. apply list_elem_of_here.
  - left. reflexivity.
Defined.

Lemma fetchers_fall_back_witness :
  let down := Samples.constant_network (Raise Timeout) in
  ((@get_exchange_rate down []).1 = PyFloat 1450.0%float
   /\ (@get_weather down []).1 = weather_fallback
   /\ (@get_osm_places Samples.ascii_runtime down (py "hotel")
         Samples.berlin_lat Samples.berlin_lng Samples.radius_3000 None []).1
      = [])
  /\ (@get_exchange_rate down [Get exchange_rate_url]).1
     = (@get_exchange_rate down []).1.
Proof.
  intros down.
  pose proof (@fetchers_fall_back Samples.ascii_runtime down
                [] [Get exchange_rate_url] Timeout Timeout (py "hotel")
                Samples.berlin_lat Samples.berlin_lng Samples.radius_3000
                None hotel_tag
                eq_refl eq_refl eq_refl eq_refl eq_refl eq_refl eq_refl)
    as [(Hrate & Hweather & _ & _ & Hplaces) (Hsame & _ & _)].
  exact (conj (conj Hrate (conj Hweather Hplaces)) Hsame).
Defined.

(* ===================================================================== *)
(** * Properties of the crime statistics loader *)
(* ===================================================================== *)

Section CrimeFacts.
Context {files : FileSystem}.

Lemma boolean_index_fmap {A} (f : A -> bool) (rs : list A) :
  boolean_index rs (f <$> rs) = List.filter f rs.
Proof.
  induction rs as [|r rs IH]; [done|].
  cbn [fmap list_fmap boolean_index List.filter].
  destruct (f r); by rewrite <- IH.
Qed.

(** Line 135 keeps the rows whose cell under the code column ends in
    [0000], when the header has one code column and its dtype is
    [object]. *)
Lemma district_rows_filter df d :
  district_rows df = Ok d ->
  exists j,
    positions code_column (columns df) = [j]
    /\ columns d = columns df
    /\ rows d = List.filter
                  (fun r => cell_endswith (py "0000") (cell_at j r.2))
                  (rows df).
Proof.
  unfold district_rows, df_getitem.
  destruct (positions code_column (columns df)) as [|j [|j' js]] eqn:Hpos;
    cbn [bind str_accessor]; [done| |done].
  destruct (s_dtype (column_at df j)); cbn [bind]; try done.
  intros [= <-]. exists j. cbn [columns rows].
  split; [done|]. split; [done|].
  cbn [column_at s_values]. rewrite <- list_fmap_compose.
  apply (boolean_index_fmap
           (fun r => cell_endswith (py "0000") (cell_at j r.2))).
Qed.

(** Lines 138-148 keep every row, under its label: a row goes out with
    the cells of the selected columns [js], the one of the district column
    [jd] stripped. *)
Lemma district_table_rows d total_col out :
  district_table d total_col = Ok out ->
  exists (jd : nat) (js : list nat),
    rows out
    = (fun r => (r.1, (fun j => cell_at j (alter cell_strip jd r.2)) <$> js))
        <$> rows d.
Proof.
  unfold district_table, df_getitem.
  set (d' := rename _ d).
  destruct (positions District (columns d')) as [|jd [|jd' more]];
    cbn [bind str_accessor]; [done| |done].
  destruct (s_dtype (column_at d' jd)); cbn [bind]; try done.
  unfold df_select.
  destruct (select_positions _ _) as [js|e]; cbn [bind]; [|done].
  intros [= <-]. exists jd, js. cbn [rows update_column rename d'].
  rewrite <- list_fmap_compose. reflexivity.
Qed.

Lemma region_code_at df j cells :
  positions code_column (columns (normalize_columns df)) = [j] ->
  region_code (columns df) cells = cell_at j cells.
Proof. unfold region_code. cbn [normalize_columns columns]. by intros ->. Qed.

Lemma process_crime_frame_rows df total_col out :
  process_crime_frame (normalize_columns df) total_col = Ok out ->
  exists (jd : nat) (js : list nat),
    rows out
    = (fun r => (r.1, (fun j => cell_at j (alter cell_strip jd r.2)) <$> js))
        <$> List.filter
              (fun r => cell_endswith (py "0000")
                          (region_code (columns df) r.2))
              (rows df).
Proof.
  unfold process_crime_frame.
  destruct (district_rows (normalize_columns df)) as [d|e] eqn:Hd;
    cbn [bind]; [|done].
  intros Hout.
  destruct (district_rows_filter _ _ Hd) as (j & Hj & _ & Hrows).
  destruct (district_table_rows _ _ _ Hout) as (jd & js & Hproject).
  exists jd, js. rewrite Hproject, Hrows. cbn [normalize_columns rows].
  f_equal. apply List.filter_ext. intros r.
  by rewrite (region_code_at df j).
Qed.

Lemma load_of_frame csv_file df total_col others :
  read_csv csv_file = Ok df ->
  total_columns (columns (normalize_columns df)) = total_col :: others ->
  load_and_process_crime_data csv_file
  = (try_except (process_crime_frame (normalize_columns df) total_col)
                empty_frame, []).
Proof.
  intros Hread Htotal. unfold load_and_process_crime_data.
  by rewrite Hread, Htotal.
Qed.

(** C3. From a table that was read, the loader returns rows of the
    table whose region code ends in [0000], and only those: every row it
    returns has the label of such a row; and when the steps after the
    read go through, its rows are those rows, all of them, in their
    order, each under its label and cut down to the columns returned
    (the district name stripped). The code [010000] passes the test and
    the code [011001] does not. *)
Theorem loader_keeps_district_rows (csv_file : pystr) (df : DataFrame) :
  read_csv csv_file = Ok df ->
  (forall total_col others out,
     total_columns (columns (normalize_columns df)) = total_col :: others ->
     process_crime_frame (normalize_columns df) total_col = Ok out ->
     (load_and_process_crime_data csv_file).1 = out
     /\ exists (jd : nat) (js : list nat),
          rows out
          = (fun r => (r.1, (fun j => cell_at j (alter cell_strip jd r.2))
                              <$> js))
              <$> List.filter
                    (fun r => cell_endswith (py "0000")
                                (region_code (columns df) r.2))
                    (rows df))
  /\ (forall label,
        label ∈ (rows (load_and_process_crime_data csv_file).1).*1 ->
        exists r,
          r ∈ rows df
          /\ r.1 = label
          /\ cell_endswith (py "0000") (region_code (columns df) r.2)
             = true)
  /\ cell_endswith (py "0000") (Str (py "010000")) = true
  /\ cell_endswith (py "0000") (Str (py "011001")) = false.
Proof.
  intros Hread. split; [|split; [|done]].
  - intros total_col others out Htotal Hout.
    rewrite (load_of_frame _ _ _ _ Hread Htotal), Hout.
    split; [done|]. by apply (process_crime_frame_rows _ total_col).
  - intros label. unfold load_and_process_crime_data. rewrite Hread.
    destruct (total_columns _) as [|total_col others];
      cbn [fst empty_frame rows]; [by intros ?%elem_of_nil|].
    destruct (process_crime_frame _ total_col) as [out|e] eqn:Hout;
      cbn [try_except empty_frame rows]; [|by intros ?%elem_of_nil].
    destruct (process_crime_frame_rows _ _ _ Hout) as (jd & js & ->).
    rewrite <- list_fmap_compose.
    intros (r & -> & Hr)%list_elem_of_fmap.
    apply list_elem_of_In, List.filter_In in Hr as [Hr Hcode].
    exists r. by rewrite list_elem_of_In.
Qed.

(** C4. The loader returns the empty frame, and raises nothing, when the
    table cannot be read (no file, no parsable content: whatever
    exception the read raises), when no name of the header, once its line
    feeds are removed and its surrounding white space is stripped, holds
    both [Straftaten] and [insgesamt], and when a later step raises. *)
Theorem loader_fails_soft (csv_file : pystr) :
  (forall e,
     read_csv csv_file = Raise e ->
     load_and_process_crime_data csv_file = (empty_frame, []))
  /\ (forall df,
       read_csv csv_file = Ok df ->
       (forall c, c ∈ columns df ->
          str_in (py "Straftaten") (normalize_header c)
          && str_in (py "insgesamt") (normalize_header c) = false) ->
       load_and_process_crime_data csv_file
       = (empty_frame, [missing_total_message]))
  /\ (forall df total_col others e,
       read_csv csv_file = Ok df ->
       total_columns (columns (normalize_columns df)) = total_col :: others ->
       process_crime_frame (normalize_columns df) total_col = Raise e ->
       load_and_process_crime_data csv_file = (empty_frame, [])).
Proof.
  split; [|split].
  - intros e Hread. unfold load_and_process_crime_data. by rewrite Hread.
  - intros df Hread Hnone. unfold load_and_process_crime_data.
    rewrite Hread.
    assert (total_columns (columns (normalize_columns df)) = []) as ->;
      [|done].
    cbn [normalize_columns columns]. unfold total_columns.
    induction (columns df) as [|c header IH]; [done|].
    cbn [fmap list_fmap List.filter].
    rewrite (Hnone c) by apply list_elem_of_here.
    apply IH. intros c' Hc'. apply Hnone. by apply list_elem_of_further.
  - intros df total_col others e Hread Htotal Hraise.
    rewrite (load_of_frame _ _ _ _ Hread Htotal). by rewrite Hraise.
Qed.

End CrimeFacts.

Lemma loader_keeps_district_rows_witness :
  (@load_and_process_crime_data Samples.two_files
     (py "berlin_crime_2024.csv")).1 = Samples.crime_table.
Proof.
  refine (proj1 (proj1 (@loader_keeps_district_rows Samples.two_files
            (py "berlin_crime_2024.csv") Samples.crime_frame _)
          (py "Straftaten -insgesamt-") [] Samples.crime_table _ _));
    vm_compute; reflexivity.
Defined.

Lemma loader_fails_soft_witness :
  @load_and_process_crime_data Samples.two_files (py "missing.csv")
  = (empty_frame, [])
  /\ @load_and_process_crime_data Samples.two_files (py "no_total.csv")
     = (empty_frame, [missing_total_message]).
Proof.
  pose proof (@loader_fails_soft Samples.two_files (py "missing.csv"))
    as (Hmissing & _ & _).
  pose proof (@loader_fails_soft Samples.two_files (py "no_total.csv"))
    as (_ & Hheader & _).
  split.
  - apply (Hmissing FileNotFoundError). vm_compute. reflexivity.
  - apply (Hheader Samples.frame_without_total).
    + vm_compute. reflexivity.
    + intros c Hc. apply list_elem_of_In in Hc.
      destruct Hc as [<-|[<-|[<-|[]]]]; vm_compute; reflexivity.
Defined.

(* ===================================================================== *)
(** * Properties of the two boards *)
(* ===================================================================== *)

Section SessionFacts.

Lemma list_insert_at_0 {A} (x : A) (l : list A) :
  list_insert_at 0 x l = x :: l.
Proof. unfold list_insert_at. by rewrite take_0, drop_0. Qed.

(** The buttons of a loop stand for the indices [i], ..., of the list; a
    press outside them fires none. *)
Lemma delete_buttons_outside {A} (pressed i : nat) (shown whole : list A) :
  i + length shown <= pressed ->
  delete_buttons (Some pressed) i shown whole = Ok None.
Proof.
  revert i. induction shown as [|x shown IH]; intros i Hle; [done|].
  cbn [delete_buttons length] in *.
  rewrite bool_decide_false by (intros [= ->]; lia).
  apply IH. lia.
Qed.

(** A button that fires deletes within the list: the loop raises
    nothing. *)
Lemma delete_buttons_ok {A} (pressed : option nat) (i : nat)
    (shown whole : list A) :
  i + length shown <= length whole ->
  exists r, delete_buttons pressed i shown whole = Ok r.
Proof.
  revert i. induction shown as [|x shown IH]; intros i Hle; [by eexists|].
  cbn [delete_buttons length] in *.
  destruct (bool_decide (pressed = Some i)).
  - unfold list_del. rewrite decide_True by lia. by eexists.
  - apply IH. lia.
Qed.

(** C7. Submitting a recommendation puts it at index 0 and moves every
    entry one place back; after two submissions the second is at index 0
    and the first at index 1. Nothing else of the state changes. *)
Theorem recommendation_goes_first (st : session_state)
    (place1 desc1 place2 desc2 : pystr) :
  let r1 := {| place := place1; desc := desc1 |} in
  let r2 := {| place := place2; desc := desc2 |} in
  exists st1 st2,
    recommend_board (SubmitRecommendation place1 desc1) st = Ok st1
    /\ recommend_board (SubmitRecommendation place2 desc2) st1 = Ok st2
    /\ recommendations st1 = r1 :: recommendations st
    /\ recommendations st1 !! 0 = Some r1
    /\ (forall i, recommendations st1 !! S i = recommendations st !! i)
    /\ recommendations st2 = r2 :: r1 :: recommendations st
    /\ recommendations st2 !! 0 = Some r2
    /\ recommendations st2 !! 1 = Some r1
    /\ reviews st2 = reviews st
    /\ messages st2 = messages st.
Proof.
  intros r1 r2. do 2 eexists.
  split; [reflexivity|]. split; [reflexivity|].
  cbn [recommendations set_recommendations reviews messages].
  rewrite !list_insert_at_0. by repeat split.
Qed.

(** The review board raises nothing, whatever the event. *)
Lemma review_board_ok sel_place ev st :
  exists st', review_board sel_place ev st = Ok st'.
Proof.
  unfold review_board.
  destruct (bool_decide (sel_place = [])); [by eexists|].
  set (st0 := if bool_decide (is_Some (reviews st !! sel_place)) then st
              else set_reviews (insert sel_place []) st).
  assert (exists l, reviews st0 !! sel_place = Some l) as [l Hl].
  { unfold st0. case_bool_decide as Hin.
    - destruct Hin as [l Hl]. by exists l.
    - exists []. cbn [set_reviews reviews]. apply lookup_insert_eq. }
  unfold dict_getitem. rewrite Hl. cbn [bind].
  destruct ev as [|txt|i]; [|by eexists|].
  - destruct l as [|x l]; [by eexists|].
    destruct (delete_buttons_ok None 0 (x :: l) (x :: l)) as [r ->];
      [done|].
    cbn [bind]. destruct r; by eexists.
  - destruct l as [|x l]; [by eexists|].
    destruct (delete_buttons_ok (Some i) 0 (x :: l) (x :: l)) as [r ->];
      [done|].
    cbn [bind]. destruct r; by eexists.
Qed.

(** C8. Pressing the delete button of a line the place's review list does
    not have changes nothing: the board returns the state it was given and
    raises nothing. *)
Theorem delete_review_out_of_range (st : session_state) (sel_place : pystr)
    (l : list pystr) (i : nat) :
  reviews st !! sel_place = Some l ->
  length l <= i ->
  review_board sel_place (PressDeleteReview i) st = Ok st.
Proof.
  intros Hl Hi. unfold review_board.
  destruct (bool_decide (sel_place = [])); [done|].
  rewrite bool_decide_true by eauto.
  unfold dict_getitem. rewrite Hl. cbn [bind].
  destruct l as [|x l]; [done|].
  rewrite delete_buttons_outside by (cbn [length] in *; lia).
  done.
Qed.

(** Within the list the button deletes its line. *)
Lemma delete_review_in_range (st : session_state) (sel_place : pystr)
    (l : list pystr) (i : nat) :
  sel_place <> [] ->
  reviews st !! sel_place = Some l ->
  i < length l ->
  review_board sel_place (PressDeleteReview i) st
  = Ok (set_reviews (insert sel_place (delete i l)) st).
Proof.
  intros Hp Hl Hi. unfold review_board.
  rewrite bool_decide_false by done.
  rewrite bool_decide_true by eauto.
  unfold dict_getitem. rewrite Hl. cbn [bind].
  destruct l as [|x l]; [cbn [length] in Hi; lia|].
  assert (forall k shown,
            k <= i < k + length shown ->
            delete_buttons (Some i) k shown (x :: l)
            = Ok (Some (delete i (x :: l)))) as Hloop.
  { intros k shown. revert k.
    induction shown as [|y shown IH]; intros k Hk;
      cbn [length delete_buttons] in *; [lia|].
    case_bool_decide as Hik.
    - simplify_eq. unfold list_del. by rewrite decide_True by done.
    - apply IH. assert (k <> i) by congruence. lia. }
  rewrite Hloop by lia. done.
Qed.

End SessionFacts.

Lemma delete_review_out_of_range_witness :
  review_board (py "Mauerpark") (PressDeleteReview 2) Samples.two_reviews
  = Ok Samples.two_reviews.
Proof.
  apply (delete_review_out_of_range Samples.two_reviews (py "Mauerpark")
           [py "great"; py "crowded"] 2).
  - vm_compute. reflexivity.
  - vm_compute. lia.
Defined.

(* ===================================================================== *)
(** * More on the fetchers *)
(* ===================================================================== *)

Section FetchMore.
Context {runtime : PyRuntime} {network : Network}.


(** X2. The temperature the page shows (line 248) is read outside the
    [try]: after a failed call it is the [15.0] of the fallback, and
    when the service answers with a [current_weather] that is a
    dictionary without [temperature], or that is no dictionary, the read
    raises. *)
Theorem temperature_metric_cases (sent : list request) :
  (forall e,
     http_json sent (Get weather_url) = Raise e ->
     (temperature_metric sent).1 = Ok (PyFloat 15.0%float))
  /\ (forall data cw,
        http_json sent (Get weather_url) = Ok (PyDict data) ->
        data !! py "current_weather" = Some (PyDict cw) ->
        (temperature_metric sent).1
        = match cw !! py "temperature" with
          | Some t => Ok t
          | None => Raise KeyError
          end)
  /\ (forall data w,
        http_json sent (Get weather_url) = Ok (PyDict data) ->
        data !! py "current_weather" = Some w ->
        (forall cw, w <> PyDict cw) ->
        (temperature_metric sent).1 = Raise TypeError).
Proof.
  unfold temperature_metric, get_weather, weather_of_response.
  cbn [requests_get_json fst snd].
  split; [|split].
  - by intros e ->.
  - intros data cw -> Hcw. cbn [bind py_getitem]. rewrite Hcw.
    by cbn [try_except fst py_getitem].
  - intros data w -> Hw Hnodict. cbn [bind py_getitem]. rewrite Hw.
    cbn [try_except fst].
    destruct w; try done. by edestruct Hnodict.
Qed.

(** ** The loop over the elements *)

Lemma omap_length_le {A B} (g : A -> option B) (l : list A) :
  length (omap g l) <= length l.
Proof.
  induction l as [|x l IH]; [done|].
  cbn [omap list_omap length]. destruct (g x); cbn [length]; lia.
Qed.

(** What the loop appends for an element. *)
Lemma visit_elements_omap category f elements results :
  (forall element, element ∈ elements ->
     exists r, visit_element category f element = Ok r) ->
  visit_elements category f elements results
  = Ok (results
        ++ omap (fun element =>
                   match visit_element category f element with
                   | Ok r => r
                   | Raise _ => None
                   end) elements).
Proof.
  revert results. induction elements as [|element rest IH];
    intros results Hok.
  - cbn [visit_elements omap list_omap]. by rewrite app_nil_r.
  - cbn [visit_elements omap list_omap].
    destruct (Hok element) as [r Hr]; [apply list_elem_of_here|].
    rewrite Hr. cbn [bind].
    rewrite IH by (intros el Hel; apply Hok; by apply list_elem_of_further).
    destruct r as [record|]; [|done].
    by rewrite <- app_assoc.
Qed.

Lemma visit_elements_raise category f elements results element e :
  element ∈ elements ->
  visit_element category f element = Raise e ->
  exists e', visit_elements category f elements results = Raise e'.
Proof.
  intros Hin Hraise. revert results.
  induction elements as [|x rest IH]; intros results.
  - by apply elem_of_nil in Hin.
  - cbn [visit_elements].
    destruct (visit_element category f x) as [r|e'] eqn:Hx;
      [|by eexists].
    cbn [bind]. apply IH.
    apply elem_of_cons in Hin as [->|Hin]; [congruence|done].
Qed.

(** X3. When no element of the answer makes a turn of the loop raise, the
    places are the records of the turns that append one, in the order of
    the elements; so there are at most as many places as elements. *)
Theorem places_in_element_order (category tag : pystr)
    (lat lng radius_m : pyval) (cuisine_filter : option (list pystr))
    (sent : list request) (data : gmap pystr pyval)
    (elements : list pyval) :
  category_tag category = Some tag ->
  http_json sent (places_request tag lat lng radius_m) = Ok (PyDict data) ->
  data !! py "elements" = Some (PyList elements) ->
  (forall element, element ∈ elements ->
     exists r, visit_element category cuisine_filter element = Ok r) ->
  (get_osm_places category lat lng radius_m cuisine_filter sent).1
  = omap (fun element =>
            match visit_element category cuisine_filter element with
            | Ok r => r
            | Raise _ => None
            end) elements
  /\ length (get_osm_places category lat lng radius_m cuisine_filter sent).1
     <= length elements.
Proof.
  intros Htag Hresp Hels Hok.
  rewrite (get_osm_places_known _ _ _ _ _ _ _ Htag). cbn [fst].
  rewrite Hresp. unfold places_of_response. cbn [bind py_getitem].
  rewrite Hels. cbn [bind py_iter].
  rewrite (visit_elements_omap _ _ _ [] Hok). cbn [try_except app].
  split; [done|]. apply omap_length_le.
Qed.

(** X4. One element that makes its turn raise empties the whole result:
    the records of the other elements are lost with it. *)
Theorem places_all_or_nothing (category : pystr)
    (lat lng radius_m : pyval) (cuisine_filter : option (list pystr))
    (sent : list request) (tag : pystr) (data : gmap pystr pyval)
    (elements : list pyval) (element : pyval) (e : exn) :
  category_tag category = Some tag ->
  http_json sent (places_request tag lat lng radius_m) = Ok (PyDict data) ->
  data !! py "elements" = Some (PyList elements) ->
  element ∈ elements ->
  visit_element category cuisine_filter element = Raise e ->
  (get_osm_places category lat lng radius_m cuisine_filter sent).1 = [].
Proof.
  intros Htag Hresp Hels Hin Hraise.
  rewrite (get_osm_places_known _ _ _ _ _ _ _ Htag). cbn [fst].
  rewrite Hresp. unfold places_of_response. cbn [bind py_getitem].
  rewrite Hels. cbn [bind py_iter].
  by destruct (visit_elements_raise _ _ _ [] _ _ Hin Hraise) as [e' ->].
Qed.

(** ** Answers of another shape *)

Lemma str_in_one_char (p : pystr) (c : N) :
  2 <= length p -> str_in p [c] = false.
Proof.
  destruct p as [|a [|b p]]; cbn [length]; [lia|lia|]. intros _.
  cbn [str_in startswith]. by rewrite andb_false_r.
Qed.

Lemma visit_element_of_str category f (s : pystr) :
  visit_element category f (PyStr s) = Ok None
  \/ exists e, visit_element category f (PyStr s) = Raise e.
Proof.
  unfold visit_element. cbn [py_in bind].
  destruct (str_in (py "tags") s); cbn [negb py_getitem bind]; eauto.
Qed.

Lemma visit_elements_nothing category f elements results :
  (forall element, element ∈ elements ->
     visit_element category f element = Ok None
     \/ exists e, visit_element category f element = Raise e) ->
  visit_elements category f elements results = Ok results
  \/ exists e, visit_elements category f elements results = Raise e.
Proof.
  intros Hel. induction elements as [|x rest IH]; [by left|].
  cbn [visit_elements].
  destruct (Hel x) as [-> | [e ->]]; [apply list_elem_of_here| |by eauto].
  cbn [bind]. apply IH. intros el Hin. apply Hel.
  by apply list_elem_of_further.
Qed.

(** X5. Unless the answer is a dictionary whose [elements] is a list, the
    places are the empty list: so it is with an answer that is no
    dictionary, with no [elements], and with [elements] that is a string,
    a dictionary, a number or [None]. *)
Theorem places_need_element_list (category tag : pystr)
    (lat lng radius_m : pyval) (cuisine_filter : option (list pystr))
    (sent : list request) :
  category_tag category = Some tag ->
  (forall data elements,
     http_json sent (places_request tag lat lng radius_m)
     = Ok (PyDict data) ->
     data !! py "elements" = Some (PyList elements) -> False) ->
  (get_osm_places category lat lng radius_m cuisine_filter sent).1 = [].
Proof.
  intros Htag Hshape.
  rewrite (get_osm_places_known _ _ _ _ _ _ _ Htag). cbn [fst].
  unfold places_of_response.
  destruct (http_json sent _) as [data|e]; cbn [bind try_except]; [|done].
  destruct data as [| | | | |l|data]; cbn [py_getitem bind try_except];
    try done.
  destruct (data !! py "elements") as [v|] eqn:Hv;
    cbn [bind try_except]; [|done].
  assert (forall els,
            (forall el, el ∈ els ->
               exists s, el = PyStr s) ->
            try_except (visit_elements category cuisine_filter els []) []
            = []) as Hstrings.
  { intros els Hels.
    destruct (visit_elements_nothing category cuisine_filter els [])
      as [-> | [e ->]]; [|done|done].
    intros el Hin. destruct (Hels el Hin) as [s ->].
    apply visit_element_of_str. }
  destruct v as [| | | |s|l|m]; cbn [py_iter bind try_except]; try done.
  - apply Hstrings. intros el (c & -> & _)%list_elem_of_fmap. by eexists.
  - exfalso. by eapply Hshape.
  - apply Hstrings. intros el (k & -> & _)%list_elem_of_fmap. by eexists.
Qed.

(** X6. A named restaurant element without a [cuisine] tag is given the
    raw tag [general], lower-cased, and with it the label [일반/기타]. *)
Theorem no_cuisine_is_general (name lat lon : pyval)
    (element tags : gmap pystr pyval) :
  str_lower (py "general") = py "general" ->
  element !! py "tags" = Some (PyDict tags) ->
  tags !! py "name" = Some name ->
  tags !! py "cuisine" = None ->
  element !! py "lat" = Some lat ->
  element !! py "lon" = Some lon ->
  visit_element (py "restaurant") None (PyDict element)
  = Ok (Some (place_record name lat lon (py "restaurant")
                           (py "일반/기타") (py "general"))).
Proof.
  intros Hlower Htags Hname Hcuisine Hlat Hlon.
  unfold visit_element, py_in, py_getitem, py_get, py_lower, bind.
  rewrite Htags, Hname, Hcuisine, Hlat, Hlon.
  rewrite !bool_decide_true by eauto.
  cbn [negb default filter_applies andb id]. by rewrite Hlower.
Qed.

(** ** Drawing the markers *)

Lemma marker_color_of_record name lat lon category cuisine :
  marker_color (place_record name lat lon category
                             (classify cuisine) cuisine)
  = Ok (if str_in (py "korean") cuisine then py "red"
        else if negb (any_in western_keywords cuisine)
                && negb (any_in asian_keywords cuisine)
                && any_in cafe_keywords cuisine
        then py "beige"
        else py "green").
Proof.
  unfold marker_color. rewrite place_record_cuisine_type. cbn [bind].
  unfold classify.
  destruct (str_in (py "korean") cuisine); [reflexivity|].
  destruct (any_in western_keywords cuisine); [reflexivity|].
  destruct (any_in asian_keywords cuisine); [reflexivity|].
  destruct (any_in cafe_keywords cuisine); reflexivity.
Qed.

(** X7. Drawing the markers of a fetch raises nothing: every place has
    the [lat], [lng] and [name] a marker reads. The colour of a restaurant
    follows the rules of the classifier: red when its raw tag holds
    [korean]; beige when it holds a cafe keyword and no western or asian
    one; green otherwise. *)
Theorem markers_of_places (category : pystr) (lat lng radius_m : pyval)
    (cuisine_filter : option (list pystr)) (sent : list request)
    (record : pyval) :
  record ∈ (get_osm_places category lat lng radius_m cuisine_filter sent).1 ->
  (exists la lo name, marker_fields record = Ok (la, lo, name))
  /\ (category = py "restaurant" ->
      exists cuisine,
        py_getitem record (py "raw_cuisine") = Ok (PyStr cuisine)
        /\ marker_color record
           = Ok (if str_in (py "korean") cuisine then py "red"
                 else if negb (any_in western_keywords cuisine)
                         && negb (any_in asian_keywords cuisine)
                         && any_in cafe_keywords cuisine
                 then py "beige"
                 else py "green")).
Proof.
  intros Hin.
  pose proof (get_osm_places_Forall
    (fun r => exists name lat lon cuisine,
       r = place_record name lat lon category
                        (place_type_of category cuisine) cuisine)
    category lat lng radius_m cuisine_filter sent
    (visit_element_record category cuisine_filter)) as HF.
  rewrite Forall_forall in HF.
  destruct (HF _ Hin) as (name & la & lo & cuisine & ->).
  split; [by exists la, lo, name|].
  intros ->. exists cuisine. split; [done|].
  unfold place_type_of. rewrite bool_decide_true by done.
  apply marker_color_of_record.
Qed.


End FetchMore.

(* ===================================================================== *)
(** * More on the crime statistics loader *)
(* ===================================================================== *)

Section CrimeMore.
Context {files : FileSystem}.

(** ** Stripping *)

Lemma lstrip_head (s : pystr) (c : N) :
  head (lstrip s) = Some c -> is_space c = false.
Proof.
  induction s as [|x s IH]; [done|].
  cbn [lstrip]. destruct (is_space x) eqn:Hx; [done|].
  by intros [= <-].
Qed.

Lemma lstrip_snoc (s : pystr) (c : N) :
  is_space c = false -> exists t, lstrip (s ++ [c]) = t ++ [c].
Proof.
  intros Hc. induction s as [|x s IH].
  - exists []. cbn [app lstrip]. by rewrite Hc.
  - cbn [app lstrip]. destruct (is_space x); [done|].
    by exists (x :: s).
Qed.

Lemma rstrip_last (s : pystr) (c : N) :
  last (rstrip s) = Some c -> is_space c = false.
Proof.
  unfold rstrip. rewrite List.rev_alt.
  change (rev_append ?l []) with (reverse l).
  rewrite last_reverse. apply lstrip_head.
Qed.

Lemma rstrip_head (s : pystr) (c : N) :
  is_space c = false -> head (rstrip (c :: s)) = Some c.
Proof.
  intros Hc. unfold rstrip. cbn [rev].
  destruct (lstrip_snoc (rev s) c Hc) as [t ->].
  by rewrite List.rev_app_distr.
Qed.

(** What [strip] returns neither begins nor ends with white space. *)
Lemma strip_ends (s : pystr) (c : N) :
  head (strip s) = Some c \/ last (strip s) = Some c ->
  is_space c = false.
Proof.
  unfold strip. intros [Hhead|Hlast]; [|by eapply rstrip_last].
  destruct (lstrip s) as [|x t] eqn:Hl; [done|].
  assert (is_space x = false) as Hx
    by (apply (lstrip_head s); by rewrite Hl).
  rewrite (rstrip_head t x Hx) in Hhead. by simplify_eq.
Qed.

(** ** The shape of the table returned *)

Lemma positions_lookup (name : pystr) (header : list pystr) (j : nat) :
  j ∈ positions name header -> header !! j = Some name.
Proof.
  unfold positions. rewrite list_elem_of_In, List.filter_In.
  intros [_ Hj]. by apply bool_decide_eq_true in Hj.
Qed.

Lemma positions_names (name : pystr) (header : list pystr) :
  (fun j => default [] (header !! j)) <$> positions name header
  = replicate (length (positions name header)) name.
Proof.
  pose proof (positions_lookup name header) as Hlook.
  induction (positions name header) as [|j js IH]; [done|].
  cbn [fmap list_fmap length replicate].
  rewrite (Hlook j) by apply list_elem_of_here. cbn [default]. f_equal.
  apply IH. intros k Hk. apply Hlook. by apply list_elem_of_further.
Qed.

(** Lines 138-148, in full: the header and the rows of the table. *)
Lemma district_table_shape d total_col out :
  district_table d total_col = Ok out ->
  exists (jd : nat) (ks : list nat),
    ks <> []
    /\ columns out = District :: replicate (length ks) Total_Crime
    /\ rows out
       = (fun r => (r.1, (fun j => cell_at j (alter cell_strip jd r.2))
                           <$> (jd :: ks)))
           <$> rows d.
Proof.
  unfold district_table, df_getitem.
  set (d' := rename _ d).
  destruct (positions District (columns d')) as [|jd [|jd' more]] eqn:Hpos;
    cbn [bind str_accessor]; [done| |done].
  destruct (s_dtype (column_at d' jd)); cbn [bind]; try done.
  unfold df_select. cbn [select_positions update_column columns].
  rewrite Hpos. cbn [bind].
  pose proof (positions_names Total_Crime (columns d')) as Hnames.
  pose proof (positions_lookup District (columns d') jd) as Hjd.
  rewrite Hpos in Hjd. specialize (Hjd (list_elem_of_here _ _)).
  destruct (positions Total_Crime (columns d')) as [|k ks] eqn:Hks;
    cbn [bind]; [done|].
  rewrite app_nil_r. intros [= <-]. exists jd, (k :: ks).
  split; [done|]. cbn [columns rows]. split.
  - change ((fun j => default [] (columns d' !! j)) <$> (jd :: k :: ks)
            = District :: replicate (length (k :: ks)) Total_Crime).
    rewrite fmap_cons, Hjd. cbn [default]. f_equal. exact Hnames.
  - rewrite <- list_fmap_compose. reflexivity.
Qed.

(** X9. A table the loader returns after all its steps has the column
    [District] first and after it only columns [Total_Crime], at least
    one: the two names the map layer joins on. *)
Theorem loaded_header (csv_file : pystr) (df : DataFrame)
    (total_col : pystr) (others : list pystr) (out : DataFrame) :
  read_csv csv_file = Ok df ->
  total_columns (columns (normalize_columns df)) = total_col :: others ->
  process_crime_frame (normalize_columns df) total_col = Ok out ->
  exists n,
    columns (load_and_process_crime_data csv_file).1
    = District :: replicate (S n) Total_Crime.
Proof.
  intros Hread Htotal Hout.
  rewrite (load_of_frame _ _ _ _ Hread Htotal), Hout. cbn [try_except fst].
  unfold process_crime_frame in Hout.
  destruct (district_rows (normalize_columns df)) as [d|e]; [|done].
  cbn [bind] in Hout.
  destruct (district_table_shape _ _ _ Hout) as (jd & ks & Hks & -> & _).
  destruct ks as [|k ks]; [done|]. by exists (length ks).
Qed.

(** X10. In a table the loader returns, the first cell of every row, the
    district name, is the missing value or a string that neither begins
    nor ends with white space. *)
Theorem loaded_names_stripped (csv_file : pystr) (r : nat * list cell) :
  r ∈ rows (load_and_process_crime_data csv_file).1 ->
  exists name rest,
    r.2 = name :: rest
    /\ (name = NaN
        \/ exists s,
             name = Str s
             /\ (forall c, head s = Some c \/ last s = Some c ->
                           is_space c = false)).
Proof.
  unfold load_and_process_crime_data.
  destruct (read_csv csv_file) as [df|e];
    [|by intros ?%elem_of_nil].
  destruct (total_columns _) as [|total_col others];
    [by intros ?%elem_of_nil|].
  cbn [fst]. unfold process_crime_frame.
  destruct (district_rows (normalize_columns df)) as [d|e];
    cbn [bind try_except]; [|by intros ?%elem_of_nil].
  destruct (district_table d total_col) as [out|e] eqn:Hout;
    cbn [try_except]; [|by intros ?%elem_of_nil].
  destruct (district_table_shape _ _ _ Hout) as (jd & ks & _ & _ & ->).
  intros (r0 & -> & _)%list_elem_of_fmap. cbn [snd fmap list_fmap].
  eexists _, _. split; [reflexivity|].
  unfold cell_at. rewrite list_lookup_alter, decide_True by done.
  destruct (r0.2 !! jd) as [c|]; cbn [fmap option_fmap option_map default];
    [|by left].
  destruct c as [s| | |]; cbn [cell_strip]; try by left.
  right. exists (strip s). split; [done|]. apply strip_ends.
Qed.

(** X11. With a total column in the header, the loader still returns the
    empty frame, and shows no message, when the normalized header has no
    code column or several, or when the one it has is not of the dtype
    [object] (a column of codes read as numbers). *)
Theorem code_column_must_be_text (csv_file : pystr) (df : DataFrame)
    (total_col : pystr) (others : list pystr) :
  read_csv csv_file = Ok df ->
  total_columns (columns (normalize_columns df)) = total_col :: others ->
  (forall j,
     positions code_column (normalize_header <$> columns df) = [j] ->
     default DObject (dtypes df !! j) <> DObject) ->
  load_and_process_crime_data csv_file = (empty_frame, []).
Proof.
  intros Hread Htotal Hcode.
  rewrite (load_of_frame _ _ _ _ Hread Htotal). f_equal.
  unfold process_crime_frame, district_rows, df_getitem.
  cbn [normalize_columns columns].
  destruct (positions code_column (normalize_header <$> columns df))
    as [|j [|j' js]] eqn:Hpos; cbn [bind try_except str_accessor];
    [done| |done].
  specialize (Hcode j eq_refl).
  cbn [column_at s_dtype normalize_columns dtypes].
  by destruct (default DObject (dtypes df !! j)).
Qed.

End CrimeMore.

(* ===================================================================== *)
(** * More on the two boards *)
(* ===================================================================== *)

Section SessionMore.

(** The button of an existing line deletes that line. *)
Lemma delete_buttons_inside {A} (i k : nat) (shown whole : list A) :
  k <= i < k + length shown ->
  i < length whole ->
  delete_buttons (Some i) k shown whole = Ok (Some (delete i whole)).
Proof.
  revert k. induction shown as [|y shown IH]; intros k Hk Hi;
    cbn [length delete_buttons] in *; [lia|].
  case_bool_decide as Hik.
  - simplify_eq. unfold list_del. by rewrite decide_True by done.
  - apply IH; [|done]. assert (k <> i) by congruence. lia.
Qed.

(** X12. Pressing the delete button of line [i] of a place's reviews
    removes that line and nothing else: the lines before it stay where
    they are, the lines after it move up by one, and the reviews of the
    other places, the recommendations and the chat are untouched. *)
Theorem delete_review_removes_one (st : session_state) (sel_place : pystr)
    (l : list pystr) (i : nat) :
  sel_place <> [] ->
  reviews st !! sel_place = Some l ->
  i < length l ->
  exists st' l',
    review_board sel_place (PressDeleteReview i) st = Ok st'
    /\ reviews st' !! sel_place = Some l'
    /\ l' = take i l ++ drop (S i) l
    /\ S (length l') = length l
    /\ (forall j, j < i -> l' !! j = l !! j)
    /\ (forall j, i <= j -> l' !! j = l !! S j)
    /\ (forall other, other <> sel_place ->
          reviews st' !! other = reviews st !! other)
    /\ recommendations st' = recommendations st
    /\ messages st' = messages st.
Proof.
  intros Hp Hl Hi.
  exists (set_reviews (insert sel_place (delete i l)) st), (delete i l).
  split.
  { unfold review_board.
    rewrite bool_decide_false by done.
    rewrite bool_decide_true by eauto.
    unfold dict_getitem. rewrite Hl. cbn [bind].
    destruct l as [|x l]; [cbn [length] in Hi; lia|].
    rewrite delete_buttons_inside by (cbn [length] in *; lia). done. }
  cbn [set_reviews reviews recommendations messages].
  split; [apply lookup_insert_eq|].
  split; [apply delete_take_drop|].
  split; [rewrite length_delete by eauto using lookup_lt_is_Some_2; lia|].
  split; [intros j Hj; by apply list_lookup_delete_lt|].
  split; [intros j Hj; by apply list_lookup_delete_ge|].
  split; [intros other Hother; by apply lookup_insert_ne|].
  done.
Qed.

(** X13. Submitting a review of a named place adds the text at the end of
    the place's list, which starts empty when the place had none; the
    reviews of the other places are untouched and nothing is raised. *)
Theorem submit_review_appends (st : session_state) (sel_place txt : pystr) :
  sel_place <> [] ->
  exists st',
    review_board sel_place (SubmitReview txt) st = Ok st'
    /\ reviews st' !! sel_place
       = Some (default [] (reviews st !! sel_place) ++ [txt])
    /\ (forall other, other <> sel_place ->
          reviews st' !! other = reviews st !! other)
    /\ recommendations st' = recommendations st
    /\ messages st' = messages st.
Proof.
  intros Hp. unfold review_board. rewrite bool_decide_false by done.
  destruct (reviews st !! sel_place) as [l|] eqn:Hl.
  - rewrite bool_decide_true by eauto.
    unfold dict_getitem. rewrite Hl. cbn [bind default].
    eexists. split; [reflexivity|].
    cbn [set_reviews reviews recommendations messages].
    split; [apply lookup_insert_eq|].
    split; [intros other Hother; by apply lookup_insert_ne|done].
  - rewrite bool_decide_false by (by intros [? ?]).
    unfold dict_getitem. cbn [set_reviews reviews].
    rewrite lookup_insert_eq. cbn [bind default].
    eexists. split; [reflexivity|].
    cbn [set_reviews reviews recommendations messages].
    split; [apply lookup_insert_eq|].
    split; [|done].
    intros other Hother. by rewrite !lookup_insert_ne.
Qed.

(** X14. Showing the board for a named place that has no reviews yet
    changes the state: the place is entered with an empty list. Showing
    it again changes nothing more. *)
Theorem first_visit_registers (st : session_state) (sel_place : pystr) :
  sel_place <> [] ->
  reviews st !! sel_place = None ->
  let st' := set_reviews (insert sel_place []) st in
  review_board sel_place NoReviewEvent st = Ok st'
  /\ st' <> st
  /\ review_board sel_place NoReviewEvent st' = Ok st'.
Proof.
  intros Hp Hl st'. split; [|split].
  - unfold review_board. rewrite bool_decide_false by done.
    rewrite bool_decide_false by (rewrite Hl; by intros [? ?]).
    unfold dict_getitem. cbn [set_reviews reviews].
    by rewrite lookup_insert_eq.
  - intros Heq. apply (f_equal (fun s => reviews s !! sel_place)) in Heq.
    unfold st' in Heq. cbn [set_reviews reviews] in Heq.
    rewrite lookup_insert_eq, Hl in Heq. done.
  - unfold review_board. rewrite bool_decide_false by done.
    assert (reviews st' !! sel_place = Some []) as Hl'
      by apply lookup_insert_eq.
    rewrite bool_decide_true by eauto.
    unfold dict_getitem. by rewrite Hl'.
Qed.


End SessionMore.

(* ===================================================================== *)
(** * The chat, the search and the names of the selector *)
(* ===================================================================== *)

Section PageFacts.
Context {floats : FloatRuntime} {geocoder : Geocoder} {gemini : Gemini}.

(** X16. A typed prompt adds two messages at the end of the chat, the
    prompt under [user] and the answer under [assistant], and leaves the
    earlier messages and the boards as they were. Without an API key the
    answer is the fixed request for a key and nothing is sent to the
    service; with a key the prompt is sent once and the answer is the
    text of the service, or the fixed error text when the service
    fails. *)
Theorem chat_adds_two_messages (st : session_state) (p : pystr)
    (prompts : list pystr) :
  p <> [] ->
  exists resp,
    messages (chat_board (Some p) st prompts).1
    = messages st ++ [{| role := py "user"; content := p |};
                      {| role := py "assistant"; content := resp |}]
    /\ (GEMINI_API_KEY = [] ->
        resp = key_needed
        /\ (chat_board (Some p) st prompts).2 = prompts)
    /\ (GEMINI_API_KEY <> [] ->
        resp = match gemini_text prompts p with
               | Ok text => text
               | Raise _ => ai_error
               end
        /\ (chat_board (Some p) st prompts).2 = prompts ++ [p])
    /\ reviews (chat_board (Some p) st prompts).1 = reviews st
    /\ recommendations (chat_board (Some p) st prompts).1
       = recommendations st.
Proof.
  intros Hp. destruct p as [|c p]; [done|].
  unfold chat_board, get_gemini_response.
  case_bool_decide as Hkey.
  - exists key_needed.
    cbn [fst snd set_messages messages reviews recommendations].
    rewrite <- app_assoc. by repeat split.
  - eexists.
    cbn [fst snd set_messages messages reviews recommendations].
    rewrite <- app_assoc. split; [reflexivity|].
    split; [done|]. split; [|done].
    intros _. by destruct (gemini_text prompts (c :: p)).
Qed.

(** ** The search *)

Lemma location_of_first (first : gmap pystr pyval) (more : list pyval)
    (la lo name : pyval) (x y : float) :
  first !! py "lat" = Some la ->
  first !! py "lon" = Some lo ->
  first !! py "display_name" = Some name ->
  py_float la = Ok x ->
  py_float lo = Ok y ->
  location_of_response (Ok (PyList (PyDict first :: more)))
  = Ok (Some (PyFloat x, PyFloat y, name)).
Proof.
  intros Hla Hlo Hname Hx Hy. unfold location_of_response.
  cbn [bind py_truthy py_getitem_int lookup list_lookup py_getitem].
  rewrite Hla. cbn [bind]. rewrite Hx. cbn [bind].
  rewrite Hlo. cbn [bind]. rewrite Hy. cbn [bind].
  by rewrite Hname.
Qed.

Lemma location_of_response_floats response found :
  location_of_response response = Ok (Some found) ->
  exists x y name, found = (PyFloat x, PyFloat y, name).
Proof.
  unfold location_of_response, bind.
  repeat (case_match; try done). intros [= <-]. eauto.
Qed.

Lemma search_location_shape query asked :
  (search_location query asked).2 = asked ++ [query]
  /\ ((search_location query asked).1 = (PyNone, PyNone, PyNone)
      \/ exists x y name,
           (search_location query asked).1 = (PyFloat x, PyFloat y, name)).
Proof.
  unfold search_location. cbn [fst snd]. split; [done|].
  destruct (location_of_response _) as [[found|]|e] eqn:Hfound;
    [|by left|by left].
  right. by eapply location_of_response_floats.
Qed.

Lemma search_location_first query asked first more la lo name x y :
  nominatim_json asked query = Ok (PyList (PyDict first :: more)) ->
  first !! py "lat" = Some la ->
  first !! py "lon" = Some lo ->
  first !! py "display_name" = Some name ->
  py_float la = Ok x ->
  py_float lo = Ok y ->
  (search_location query asked).1 = (PyFloat x, PyFloat y, name).
Proof.
  intros Hres Hla Hlo Hname Hx Hy. unfold search_location. cbn [fst].
  by rewrite Hres, (location_of_first _ _ _ _ _ _ _ Hla Hlo Hname Hx Hy).
Qed.

(** X17. A search asks the geocoder once and returns either three
    [None] or two floats and a name, never a mixture: three [None] when
    the call fails and when the answer is empty, and the coordinates of
    the first match, converted by [float], with its display name when the
    answer is a list that begins with a dictionary holding the three. *)
Theorem search_location_result (query : pystr) (asked : list pystr) :
  (search_location query asked).2 = asked ++ [query]
  /\ ((search_location query asked).1 = (PyNone, PyNone, PyNone)
      \/ exists x y name,
           (search_location query asked).1 = (PyFloat x, PyFloat y, name))
  /\ (forall e,
        nominatim_json asked query = Raise e ->
        (search_location query asked).1 = (PyNone, PyNone, PyNone))
  /\ (forall res,
        nominatim_json asked query = Ok res ->
        py_truthy res = false ->
        (search_location query asked).1 = (PyNone, PyNone, PyNone))
  /\ (forall first more la lo name x y,
        nominatim_json asked query = Ok (PyList (PyDict first :: more)) ->
        first !! py "lat" = Some la ->
        first !! py "lon" = Some lo ->
        first !! py "display_name" = Some name ->
        py_float la = Ok x ->
        py_float lo = Ok y ->
        (search_location query asked).1 = (PyFloat x, PyFloat y, name)).
Proof.
  destruct (search_location_shape query asked) as [Hasked Hshape].
  split; [done|]. split; [done|]. split; [|split].
  - intros e He. unfold search_location. cbn [fst]. by rewrite He.
  - intros res Hres Hfalsy. unfold search_location. cbn [fst].
    rewrite Hres. unfold location_of_response. cbn [bind].
    by rewrite Hfalsy.
  - intros first more la lo name x y. apply search_location_first.
Qed.

(** X18. The search box changes nothing but the centre of the map and the
    search marker, and these only on success: then the centre is the pair
    of two floats different from zero and the marker, the one marker of
    the session, holds them with the name. An empty query asks nothing;
    any other query is asked once, with [ Berlin] after it. *)
Theorem search_box_effect (search_query : pystr) (st : session_state)
    (asked : list pystr) :
  let st' := (search_box search_query st asked).1.1 in
  let message := (search_box search_query st asked).1.2 in
  let asked' := (search_box search_query st asked).2 in
  reviews st' = reviews st
  /\ recommendations st' = recommendations st
  /\ messages st' = messages st
  /\ match message with
     | SidebarSuccess name =>
       exists x y,
         map_center st' = (PyFloat x, PyFloat y)
         /\ search_marker st'
            = Some (marker_dict (PyFloat x) (PyFloat y) name)
         /\ PrimFloat.eqb x 0%float = false
         /\ PrimFloat.eqb y 0%float = false
     | _ => st' = st
     end
  /\ (search_query = [] -> asked' = asked /\ message = NoSidebarMessage)
  /\ (search_query <> [] -> asked' = asked ++ [search_query ++ py " Berlin"]).
Proof.
  unfold search_box. case_bool_decide as Hq.
  - cbn [fst snd]. by repeat split.
  - destruct (search_location_shape (search_query ++ py " Berlin") asked)
      as (Hasked & Hshape).
    destruct (search_location (search_query ++ py " Berlin") asked)
      as [found asked'] eqn:Hfound.
    cbn [fst snd] in Hasked, Hshape. subst asked'.
    destruct Hshape as [-> | (x & y & name & ->)].
    + cbn [py_truthy andb fst snd]. by repeat split.
    + cbn [py_truthy].
      destruct (PrimFloat.eqb x 0) eqn:Hx; cbn [negb andb fst snd];
        [by repeat split|].
      destruct (PrimFloat.eqb y 0) eqn:Hy; cbn [negb andb fst snd];
        [by repeat split|].
      cbn [set_search reviews recommendations messages map_center
           search_marker].
      repeat split; try done. by exists x, y.
Qed.

(** X19. A match whose latitude or longitude converts to zero is treated
    as no match: the sidebar shows the error and the state is left as it
    was. *)
Theorem zero_coordinate_not_found (search_query : pystr)
    (st : session_state) (asked : list pystr)
    (first : gmap pystr pyval) (more : list pyval) (la lo name : pyval)
    (x y : float) :
  search_query <> [] ->
  nominatim_json asked (search_query ++ py " Berlin")
  = Ok (PyList (PyDict first :: more)) ->
  first !! py "lat" = Some la ->
  first !! py "lon" = Some lo ->
  first !! py "display_name" = Some name ->
  py_float la = Ok x ->
  py_float lo = Ok y ->
  PrimFloat.eqb x 0%float = true \/ PrimFloat.eqb y 0%float = true ->
  (search_box search_query st asked).1 = (st, SidebarError).
Proof.
  intros Hq Hres Hla Hlo Hname Hx Hy Hzero.
  unfold search_box. rewrite bool_decide_false by done.
  pose proof (search_location_first _ _ _ _ _ _ _ _ _
                Hres Hla Hlo Hname Hx Hy) as Hfirst.
  destruct (search_location (search_query ++ py " Berlin") asked)
    as [found asked'].
  cbn [fst] in Hfirst. subst found. cbn [py_truthy].
  destruct Hzero as [-> | ->]; cbn [negb andb fst];
    [done|by rewrite andb_false_r].
Qed.

(** ** The names of the review selector *)

(** Without the separator in it, a string is its own single piece. *)
Lemma split2_none (a b : N) (s piece : pystr) :
  str_in [a; b] s = false ->
  split2 a b s piece = [rev piece ++ s].
Proof.
  revert piece. induction s as [|c s IH]; intros piece Hs.
  - cbn [split2]. by rewrite app_nil_r.
  - cbn [str_in] in Hs. apply orb_false_iff in Hs as [Hstart Hrest].
    cbn [split2]. destruct s as [|d s'].
    + reflexivity.
    + cbn [startswith] in Hstart. rewrite andb_true_r in Hstart.
      rewrite (N.eqb_sym a c), (N.eqb_sym b d) in Hstart.
      rewrite Hstart. rewrite (IH (c :: piece) Hrest).
      cbn [rev]. by rewrite <- app_assoc.
Qed.

(** Up to the first separator lies the first piece. *)
Lemma split2_first (a b : N) (pre rest piece : pystr) :
  str_in [a; b] (pre ++ [a]) = false ->
  split2 a b (pre ++ a :: b :: rest) piece
  = (rev piece ++ pre) :: split2 a b rest [].
Proof.
  revert piece. induction pre as [|c pre IH]; intros piece Hpre.
  - cbn [app split2]. rewrite !N.eqb_refl. cbn [andb].
    by rewrite app_nil_r.
  - cbn [app str_in] in Hpre. apply orb_false_iff in Hpre as [Hstart Hrest].
    cbn [app split2].
    destruct (pre ++ a :: b :: rest) as [|d s'] eqn:Hs;
      [by destruct pre|].
    assert (((c =? a) && (d =? b))%N = false) as ->.
    { destruct pre as [|d' pre']; cbn [app] in Hs, Hstart; simplify_eq.
      - cbn [startswith] in Hstart. rewrite andb_true_r in Hstart.
        rewrite <- Hstart. f_equal; apply N.eqb_sym.
      - cbn [startswith] in Hstart. rewrite andb_true_r in Hstart.
        rewrite <- Hstart. f_equal; apply N.eqb_sym. }
    rewrite (IH (c :: piece) Hrest). cbn [rev].
    by rewrite <- app_assoc.
Qed.

Lemma str_in_first (a b : N) (pre rest : pystr) :
  str_in [a; b] (pre ++ a :: b :: rest) = true.
Proof. apply (str_in_app pre [a; b] rest). Qed.

(** A piece free of the separator stays free of it with the first
    character of the separator after it. *)
Lemma str_in_snoc_first (a b : N) (pre : pystr) :
  a <> b ->
  str_in [a; b] pre = false ->
  str_in [a; b] (pre ++ [a]) = false.
Proof.
  intros Hab. induction pre as [|c pre IH]; intros Hpre.
  - cbn [app str_in startswith]. by rewrite andb_false_r.
  - cbn [app str_in] in *. apply orb_false_iff in Hpre as [Hstart Hrest].
    rewrite (IH Hrest), orb_false_r.
    cbn [startswith] in *. destruct (a =? c)%N; [|done].
    cbn [andb] in *. destruct pre as [|d pre]; [|done].
    cbn [app startswith]. rewrite andb_true_r.
    apply N.eqb_neq. congruence.
Qed.

(** X20. The name offered for review is the text between the first and
    the second [". "] of the catalog name: a name [n. X] gives [X] when
    [X] holds no further separator, and a name [n. X. Y] gives [X]
    alone. A name without the separator is offered as it is. *)
Theorem review_choice_piece (pre mid rest : pystr) :
  let sep := [FULL_STOP; SPACE] in
  str_in sep pre = false ->
  str_in sep mid = false ->
  review_choice (pre ++ sep ++ mid) = Ok mid
  /\ review_choice (pre ++ sep ++ mid ++ sep ++ rest) = Ok mid
  /\ review_choice mid = Ok mid.
Proof.
  intros sep Hpre Hmid.
  assert (FULL_STOP <> SPACE) as Hne by done.
  pose proof (str_in_snoc_first _ _ _ Hne Hpre) as Hpre'.
  pose proof (str_in_snoc_first _ _ _ Hne Hmid) as Hmid'.
  unfold review_choice. split; [|split].
  - cbn [sep app].
    rewrite str_in_first, (split2_first _ _ _ _ [] Hpre').
    by rewrite (split2_none _ _ _ [] Hmid).
  - cbn [sep app].
    rewrite str_in_first, (split2_first _ _ _ _ [] Hpre').
    by rewrite (split2_first _ _ _ _ [] Hmid').
  - fold sep. by rewrite Hmid.
Qed.

Lemma split2_cons2 (a b c d : N) (s piece : pystr) :
  split2 a b (c :: d :: s) piece
  = if ((c =? a) && (d =? b))%N then rev piece :: split2 a b s []
    else split2 a b (d :: s) (c :: piece).
Proof. reflexivity. Qed.

(** A split gives one piece at least. *)
Lemma split2_nonempty (a b : N) (s piece : pystr) :
  exists p ps, split2 a b s piece = p :: ps.
Proof.
  assert (forall n s piece,
            length s <= n -> exists p ps, split2 a b s piece = p :: ps)
    as Hn; [|by apply (Hn (length s))].
  clear s piece. induction n as [|n IH]; intros s piece Hlen.
  - destruct s; [by eexists _, _|cbn [length] in Hlen; lia].
  - destruct s as [|c [|d s']]; [by eexists _, _|by eexists _, _|].
    rewrite split2_cons2. cbn [length] in Hlen.
    destruct ((c =? a) && (d =? b))%N; [by eexists _, _|].
    apply IH. cbn [length]. lia.
Qed.

(** X21. Taking the second piece never raises: a name that holds the
    separator splits into two pieces at least. *)
Theorem review_choice_ok (name : pystr) :
  exists choice, review_choice name = Ok choice.
Proof.
  unfold review_choice.
  destruct (str_in [FULL_STOP; SPACE] name) eqn:Hin; [|by eexists].
  assert (forall s piece,
            str_in [FULL_STOP; SPACE] s = true ->
            exists p0 p1 ps,
              split2 FULL_STOP SPACE s piece = p0 :: p1 :: ps) as Htwo.
  { clear name Hin. induction s as [|c s IH]; intros piece Hs; [done|].
    cbn [str_in] in Hs.
    destruct s as [|d s'].
    { cbn [str_in startswith] in Hs. by rewrite andb_false_r in Hs. }
    rewrite split2_cons2.
    destruct ((c =? FULL_STOP) && (d =? SPACE))%N eqn:Hcd.
    - destruct (split2_nonempty FULL_STOP SPACE s' []) as (p & ps & ->).
      by eexists _, _, _.
    - apply IH. apply orb_true_iff in Hs as [Hstart|Hrest]; [|done].
      cbn [startswith] in Hstart. rewrite andb_true_r in Hstart.
      rewrite (N.eqb_sym FULL_STOP c), (N.eqb_sym SPACE d) in Hstart.
      congruence. }
  destruct (Htwo name [] Hin) as (p0 & p1 & ps & ->). by exists p1.
Qed.

End PageFacts.

(* ===================================================================== *)
(** * The further properties on the sample data *)
(* ===================================================================== *)


Lemma temperature_metric_cases_witness :
  (@temperature_metric (Samples.constant_network (Raise Timeout)) []).1
  = Ok (PyFloat 15.0%float)
  /\ (@temperature_metric MoreSamples.windy_network []).1 = Raise KeyError.
Proof.
  split.
  - apply (proj1 (@temperature_metric_cases
                    (Samples.constant_network (Raise Timeout)) [])
             Timeout).
    reflexivity.
  - refine (eq_trans
              (proj1 (proj2 (@temperature_metric_cases
                               MoreSamples.windy_network []))
                 _ (list_to_map [(py "windspeed", PyFloat 7.5%float)]) _ _)
              _);
      vm_compute; reflexivity.
Defined.

Lemma places_in_element_order_witness :
  (@get_osm_places Samples.ascii_runtime Samples.two_restaurants
     (py "restaurant") Samples.berlin_lat Samples.berlin_lng
     Samples.radius_3000 None []).1
  = [Samples.seoul_garden_record; Samples.da_mario_record].
Proof.
  refine (eq_trans
            (proj1 (@places_in_element_order Samples.ascii_runtime
                      Samples.two_restaurants (py "restaurant")
                      restaurant_tag Samples.berlin_lat Samples.berlin_lng
                      Samples.radius_3000 None []
                      (list_to_map
                         [(py "elements",
                           PyList [Samples.seoul_garden; Samples.da_mario])])
                      [Samples.seoul_garden; Samples.da_mario] _ _ _ _))
            _).
  - reflexivity.
  - vm_compute. reflexivity.
  - vm_compute. reflexivity.
  - intros element Hin. apply list_elem_of_In in Hin.
    destruct Hin as [<-|[<-|[]]]; eexists; vm_compute; reflexivity.
  - vm_compute. reflexivity.
Defined.

Lemma places_all_or_nothing_witness :
  (@get_osm_places Samples.ascii_runtime MoreSamples.broken_second
     (py "restaurant") Samples.berlin_lat Samples.berlin_lng
     Samples.radius_3000 None []).1 = [].
Proof.
  apply (@places_all_or_nothing Samples.ascii_runtime
           MoreSamples.broken_second (py "restaurant") Samples.berlin_lat
           Samples.berlin_lng Samples.radius_3000 None [] restaurant_tag
           (list_to_map
              [(py "elements",
                PyList [Samples.seoul_garden; MoreSamples.no_coordinates])])
           [Samples.seoul_garden; MoreSamples.no_coordinates]
           MoreSamples.no_coordinates KeyError).
  - reflexivity.
  - vm_compute. reflexivity.
  - vm_compute. reflexivity.
  - apply list_elem_of_further, list_elem_of_here.
  - vm_compute. reflexivity.
Defined.

Lemma places_need_element_list_witness :
  (@get_osm_places Samples.ascii_runtime MoreSamples.elements_text
     (py "hotel") Samples.berlin_lat Samples.berlin_lng
     Samples.radius_3000 None []).1 = [].
Proof.
  apply (@places_need_element_list Samples.ascii_runtime
           MoreSamples.elements_text (py "hotel") hotel_tag).
  - reflexivity.
  - intros data elements Hanswer Helements.
    injection Hanswer as <-. vm_compute in Helements. discriminate Helements.
Defined.

Lemma no_cuisine_is_general_witness :
  @visit_element Samples.ascii_runtime (py "restaurant") None
                 (PyDict MoreSamples.plain_node)
  = Ok (Some (place_record (PyStr (py "Kantine")) (PyFloat 52.5%float)
                           (PyFloat 13.5%float) (py "restaurant")
                           (py "일반/기타") (py "general"))).
Proof.
  apply (@no_cuisine_is_general Samples.ascii_runtime
           (PyStr (py "Kantine")) (PyFloat 52.5%float) (PyFloat 13.5%float)
           MoreSamples.plain_node MoreSamples.plain_tags);
    vm_compute; reflexivity.
Defined.

Lemma markers_of_places_witness :
  marker_color Samples.seoul_garden_record = Ok (py "red")
  /\ marker_color Samples.da_mario_record = Ok (py "green").
Proof.
  assert (forall record,
            record ∈ [Samples.seoul_garden_record; Samples.da_mario_record] ->
            exists cuisine,
              py_getitem record (py "raw_cuisine") = Ok (PyStr cuisine)
              /\ marker_color record
                 = Ok (if str_in (py "korean") cuisine then py "red"
                       else if negb (any_in western_keywords cuisine)
                               && negb (any_in asian_keywords cuisine)
                               && any_in cafe_keywords cuisine
                       then py "beige"
                       else py "green")) as Hcolor.
  { intros record Hin.
    refine (proj2 (@markers_of_places Samples.ascii_runtime
                     Samples.two_restaurants (py "restaurant")
                     Samples.berlin_lat Samples.berlin_lng
                     Samples.radius_3000 None [] record _) eq_refl).
    vm_compute. exact Hin. }
  split.
  - destruct (Hcolor Samples.seoul_garden_record (list_elem_of_here _ _))
      as (cuisine & Hraw & ->).
    injection Hraw as <-. reflexivity.
  - destruct (Hcolor Samples.da_mario_record
                (list_elem_of_further _ _ _ (list_elem_of_here _ _)))
      as (cuisine & Hraw & ->).
    injection Hraw as <-. reflexivity.
Defined.


Lemma loaded_header_witness :
  exists n,
    columns (@load_and_process_crime_data Samples.two_files
               (py "berlin_crime_2024.csv")).1
    = District :: replicate (S n) Total_Crime.
Proof.
  apply (@loaded_header Samples.two_files (py "berlin_crime_2024.csv")
           Samples.crime_frame (py "Straftaten -insgesamt-") []
           Samples.crime_table);
    vm_compute; reflexivity.
Defined.

Lemma loaded_names_stripped_witness :
  exists name rest,
    [Str (py "Mitte"); Int 120] = name :: rest
    /\ (name = NaN
        \/ exists s,
             name = Str s
             /\ (forall c, head s = Some c \/ last s = Some c ->
                           is_space c = false)).
Proof.
  apply (@loaded_names_stripped Samples.two_files
           (py "berlin_crime_2024.csv") (0, [Str (py "Mitte"); Int 120])).
  vm_compute. apply list_elem_of_here.
Defined.

Lemma code_column_must_be_text_witness :
  @load_and_process_crime_data MoreSamples.numeric_file (py "any.csv")
  = (empty_frame, []).
Proof.
  apply (@code_column_must_be_text MoreSamples.numeric_file (py "any.csv")
           MoreSamples.numeric_codes (py "Straftaten -insgesamt-") []).
  - reflexivity.
  - vm_compute. reflexivity.
  - intros j Hj. vm_compute in Hj. injection Hj as <-.
    vm_compute. discriminate.
Defined.

Lemma delete_review_removes_one_witness :
  exists st' l',
    review_board (py "Mauerpark") (PressDeleteReview 0) Samples.two_reviews
    = Ok st'
    /\ reviews st' !! py "Mauerpark" = Some l'
    /\ l' = [py "crowded"].
Proof.
  destruct (delete_review_removes_one Samples.two_reviews (py "Mauerpark")
              [py "great"; py "crowded"] 0)
    as (st' & l' & Hrun & Hl' & Heq & _).
  - vm_compute. discriminate.
  - vm_compute. reflexivity.
  - vm_compute. lia.
  - exists st', l'. split; [exact Hrun|]. split; [exact Hl'|exact Heq].
Defined.

Lemma submit_review_appends_witness :
  exists st',
    review_board (py "Mauerpark") (SubmitReview (py "again"))
                 Samples.two_reviews = Ok st'
    /\ reviews st' !! py "Mauerpark"
       = Some [py "great"; py "crowded"; py "again"].
Proof.
  destruct (submit_review_appends Samples.two_reviews (py "Mauerpark")
              (py "again")) as (st' & Hrun & Hl & _).
  - vm_compute. discriminate.
  - exists st'. split; [exact Hrun|]. exact Hl.
Defined.

Lemma first_visit_registers_witness :
  review_board (py "Prater") NoReviewEvent Samples.two_reviews
  = Ok (set_reviews (insert (py "Prater") []) Samples.two_reviews).
Proof.
  apply (first_visit_registers Samples.two_reviews (py "Prater")).
  - vm_compute. discriminate.
  - vm_compute. reflexivity.
Defined.

Lemma chat_adds_two_messages_witness :
  exists resp,
    messages (@chat_board MoreSamples.failing_gemini (Some (py "hi"))
                Samples.two_reviews []).1
    = [{| role := py "user"; content := py "hi" |};
       {| role := py "assistant"; content := resp |}]
    /\ resp = ai_error.
Proof.
  destruct (@chat_adds_two_messages MoreSamples.failing_gemini
              Samples.two_reviews (py "hi") [])
    as (resp & Hmessages & _ & Hkey & _).
  - vm_compute. discriminate.
  - exists resp. split; [exact Hmessages|].
    apply Hkey. vm_compute. discriminate.
Defined.

Lemma search_location_result_witness :
  (@search_location MoreSamples.sample_floats MoreSamples.one_match
     (py "Tor Berlin") []).1
  = (PyFloat 52.5%float, PyFloat 13.5%float,
     PyStr (py "Brandenburger Tor")).
Proof.
  refine (proj2 (proj2 (proj2 (proj2
            (@search_location_result MoreSamples.sample_floats
               MoreSamples.one_match (py "Tor Berlin") []))))
          MoreSamples.gate_match [] _ _ _ _ _ _ _ _ _ _ _);
    vm_compute; reflexivity.
Defined.

Lemma search_box_effect_witness :
  (@search_box MoreSamples.sample_floats MoreSamples.one_match (py "Tor")
     Samples.two_reviews []).2 = [py "Tor Berlin"]
  /\ (@search_box MoreSamples.sample_floats MoreSamples.one_match []
        Samples.two_reviews []).2 = [].
Proof.
  split.
  - refine (proj2 (proj2 (proj2 (proj2 (proj2
              (@search_box_effect MoreSamples.sample_floats
                 MoreSamples.one_match (py "Tor") Samples.two_reviews [])))))
            _).
    vm_compute. discriminate.
  - refine (proj1 (proj1 (proj2 (proj2 (proj2 (proj2
              (@search_box_effect MoreSamples.sample_floats
                 MoreSamples.one_match [] Samples.two_reviews [])))))
            _)).
    reflexivity.
Defined.

Lemma zero_coordinate_not_found_witness :
  (@search_box MoreSamples.sample_floats MoreSamples.on_equator
     (py "Quito") Samples.two_reviews []).1
  = (Samples.two_reviews, SidebarError).
Proof.
  apply (@zero_coordinate_not_found MoreSamples.sample_floats
           MoreSamples.on_equator (py "Quito") Samples.two_reviews []
           MoreSamples.equator_match [] (PyStr (py "0.0"))
           (PyStr (py "13.5")) (PyStr (py "Equator")) 0%float 13.5%float).
  - vm_compute. discriminate.
  - reflexivity.
  - vm_compute. reflexivity.
  - vm_compute. reflexivity.
  - vm_compute. reflexivity.
  - vm_compute. reflexivity.
  - vm_compute. reflexivity.
  - left. vm_compute. reflexivity.
Defined.

Lemma review_choice_piece_witness :
  review_choice (py "3. Cafe am Neuen See") = Ok (py "Cafe am Neuen See")
  /\ review_choice (py "7. St. Hedwig") = Ok (py "St").
Proof.
  split.
  - refine (proj1 (review_choice_piece (py "3") (py "Cafe am Neuen See") []
                     _ _));
      vm_compute; reflexivity.
  - refine (proj1 (proj2 (review_choice_piece (py "7") (py "St")
                            (py "Hedwig") _ _)));
      vm_compute; reflexivity.
Defined.
